(** * popcorn: tile ordering, axis stitching and intensity conversion

    A shallow embedding of the pure parts of [popcorn/stitching.py] and
    [popcorn/resampling.py], with the properties the design document
    states about them.  Python integers are [Z]; Python lists are [list];
    slicing follows CPython's index normalisation. *)

From Stdlib Require Import ZArith QArith List String Ascii Bool Lia Permutation.
Import ListNotations.

Local Open Scope Z_scope.

(** ** Python sequences *)

Module Py.

(** [range(n)] and [range(a, b)]. *)
Definition range (n : Z) : list Z := map Z.of_nat (seq 0 (Z.to_nat n)).

Definition range2 (a b : Z) : list Z :=
  map (fun k => a + Z.of_nat k) (seq 0 (Z.to_nat (b - a))).

(** Normalisation of one slice bound against a length: a negative
    bound counts from the end, and everything is clamped to [0, len]. *)
Definition clamp (len i : Z) : Z :=
  if i <? 0 then Z.max 0 (i + len) else Z.min i len.

Definition len {A} (l : list A) : Z := Z.of_nat (List.length l).

(** [l[start:stop]]. *)
Definition slice {A} (l : list A) (start stop : Z) : list A :=
  let a := clamp (len l) start in
  let b := clamp (len l) stop in
  firstn (Z.to_nat (b - a)) (skipn (Z.to_nat a) l).

(** [l[start:]]. *)
Definition slice_from {A} (l : list A) (start : Z) : list A :=
  skipn (Z.to_nat (clamp (len l) start)) l.

(** [l[start:stop] = v] on a Python list: the slice is replaced by [v],
    whatever the length of [v]; a stop before the start is moved to it. *)
Definition slice_assign {A} (l : list A) (start stop : Z) (v : list A) : list A :=
  let a := clamp (len l) start in
  let b := Z.max a (clamp (len l) stop) in
  firstn (Z.to_nat a) l ++ v ++ skipn (Z.to_nat b) l.

(** [int(x / 2)] for an integer [x]: true division, then truncation
    towards zero. *)
Definition int_half (x : Z) : Z := Z.quot x 2.

End Py.

(** ** GridOrderer: [rearrange_folders_list] *)

(** ["left" in starting_position]: substring test. *)
Definition contains (needle hay : string) : bool :=
  match String.index 0 needle hay with
  | Some _ => true
  | None => false
  end.

Definition reverse_line (number_of_columns : Z) (left : bool)
    (list_of_folders : list Z) (nb_line : Z) : list Z :=
  if (nb_line + (if left then 1 else 0)) mod 2 =? 0 then
    Py.slice_assign list_of_folders
      (nb_line * number_of_columns)
      (nb_line * number_of_columns + number_of_columns)
      (rev (Py.slice list_of_folders
              (nb_line * number_of_columns)
              (nb_line * number_of_columns + number_of_columns)))
  else list_of_folders.

Definition place_line (number_of_columns : Z) (list_of_folders : list Z)
    (new_list_of_folders : list Z) (nb_line : Z) : list Z :=
  if nb_line * number_of_columns >? 0 then
    Py.slice_assign new_list_of_folders
      (nb_line * number_of_columns)
      (nb_line * number_of_columns + number_of_columns)
      (Py.slice list_of_folders
         (- (nb_line * number_of_columns + number_of_columns))
         (- (nb_line * number_of_columns)))
  else
    Py.slice_assign new_list_of_folders
      (nb_line * number_of_columns)
      (nb_line * number_of_columns + number_of_columns)
      (Py.slice_from list_of_folders
         (- (nb_line * number_of_columns + number_of_columns))).

Definition rearrange_folders_list (starting_position : string)
    (number_of_lines number_of_columns : Z) : list Z :=
  let list_of_folders :=
    fold_left (reverse_line number_of_columns (contains "left" starting_position))
      (Py.range number_of_lines)
      (Py.range (number_of_lines * number_of_columns)) in
  if contains "bottom" starting_position then
    fold_left (place_line number_of_columns list_of_folders)
      (Py.range number_of_lines)
      (Py.range2 1 (number_of_lines * number_of_columns + 1))
  else list_of_folders.

(** The four positions the docstring allows. *)
Inductive Corner := TopLeft | TopRight | BottomLeft | BottomRight.

Definition corner_name (k : Corner) : string :=
  match k with
  | TopLeft => "top-left"
  | TopRight => "top-right"
  | BottomLeft => "bottom-left"
  | BottomRight => "bottom-right"
  end.

(** Cutting a flat grid into its lines: [number_of_lines] runs of
    [number_of_columns] entries. *)
Fixpoint lines_of (number_of_lines number_of_columns : nat) (l : list Z)
    : list (list Z) :=
  match number_of_lines with
  | O => []
  | S n => firstn number_of_columns l
           :: lines_of n number_of_columns (skipn number_of_columns l)
  end.

(** ** AxisStitcher: [stitch_multiple_folders_into_one]

    The function works on the file system.  A folder is modelled by its
    listing after [glob] and [sort] (reversed when [flip] is set), a file
    by an element of an arbitrary type [file]; the folders come in the
    sorted order of their names and are taken distinct from each other
    and from the output folder, so that moving the files of one folder
    leaves the other listings unchanged.  The run is modelled by the file
    operations it performs, grouped by iteration of the loop over the
    folders, and by the error that stops it, if any.  The correlation
    search works on pixel data read through [open_sequence]; its result,
    an integer or an exception, enters as [overlap_oracle].  Renaming,
    copying and saving are taken to succeed; reading the slices to
    average is not modelled beyond their number (in move mode some of
    them have been renamed by then). *)

Inductive error :=
| SysExit (message : string)
| ValueError
| IndexError.

(** A computation that returns a value or raises. *)
Inductive outcome (A : Type) :=
| Ok (a : A)
| Raise (e : error).

Arguments Ok {A}.
Arguments Raise {A}.

Section AxisStitcher.
Variable file : Type.

(** [os.rename(src, output_folder + '/' + basename(name_from))],
    [shutil.copy2] likewise, and [save_tif_image] of the average of
    two slices to [output_folder + basename(name_from)]. *)
Inductive op :=
| Move (src name_from : file)
| Copy (src name_from : file)
| SaveAverage (bottom top name_from : file).

Definition source (o : op) : list file :=
  match o with
  | Move src _ => [src]
  | Copy src _ => [src]
  | SaveAverage _ _ _ => []
  end.

Definition sources (ops : list op) : list file := flat_map source ops.

(** [int(look_for_maximum_correlation_band(open_sequence(bottom_band),
    open_sequence(top_band), 10, True))]. *)
Variable overlap_oracle : list file -> list file -> outcome Z.

Variables (delta_z : Z) (look_for_best_slice : bool) (copy_mode : Z)
          (security_band_size : Z) (overlap_mode : Z)
          (band_average_size : Z) (flip : bool).

Definition supposed_bottom_overlap_slice (nb_slices : Z) : Z :=
  nb_slices - Py.int_half (nb_slices - delta_z).

Definition supposed_top_overlap_slice (nb_slices : Z) : Z :=
  Py.int_half (nb_slices - delta_z).

Definition overlap_index_difference
    (bottom_image_filenames top_image_filenames : list file) : outcome Z :=
  let nb_slices := Py.len bottom_image_filenames in
  if look_for_best_slice then
    let bottom_band_filenames :=
      Py.slice bottom_image_filenames
        (supposed_bottom_overlap_slice nb_slices - security_band_size)
        (supposed_bottom_overlap_slice nb_slices + security_band_size) in
    let top_band_filenames :=
      Py.slice top_image_filenames
        (supposed_top_overlap_slice nb_slices - security_band_size)
        (supposed_top_overlap_slice nb_slices + security_band_size) in
    match overlap_oracle bottom_band_filenames top_band_filenames with
    | Ok overlap_index => Ok (security_band_size - overlap_index)
    | Raise e => Raise e
    end
  else Ok 0.

(** The copy loop: slice number [i] of [list_to_copy] is moved or
    copied under the name of slice [-(i+1)] when [flip] is set, of
    slice [i] otherwise; [list_to_copy[-(i+1)]] is entry [i] of the
    reversed list. *)
Definition copy_ops (list_to_copy : list file) : list op :=
  map (fun '(src, name_from) =>
         if copy_mode =? 0 then Move src name_from else Copy src name_from)
      (combine list_to_copy (if flip then rev list_to_copy else list_to_copy)).

(** [first_image + second_image] on the two opened bands: slice by
    slice, a band of one slice being broadcast; other lengths do not
    fit together. *)
Definition averaged_slices (first second : list file)
    : option (list (file * file)) :=
  if Py.len first =? Py.len second then Some (combine first second)
  else match first, second with
       | [x], _ => Some (map (fun y => (x, y)) second)
       | _, [y] => Some (map (fun x => (x, y)) first)
       | _, _ => None
       end.

(** The loop saving the averaged band: for every name, every index
    below [band_average_size] is read from the averaged image; the
    first index past its end stops the run. *)
Fixpoint save_indices (averaged_image : list (file * file)) (filename : file)
    (indices : list Z) : list op * option error :=
  match indices with
  | [] => ([], None)
  | i :: rest =>
      match nth_error averaged_image (Z.to_nat i) with
      | None => ([], Some IndexError)
      | Some (b, t) =>
          let '(ops, e) := save_indices averaged_image filename rest in
          (SaveAverage b t filename :: ops, e)
      end
  end.

Fixpoint save_ops (averaged_image : list (file * file))
    (list_of_new_filenames : list file) : list op * option error :=
  match list_of_new_filenames with
  | [] => ([], None)
  | filename :: rest =>
      match save_indices averaged_image filename
              (Py.range2 0 band_average_size) with
      | (ops, Some e) => (ops, Some e)
      | (ops, None) =>
          let '(ops', e) := save_ops averaged_image rest in
          (ops ++ ops', e)
      end
  end.

Section Loop.
Variable list_of_folders : list (list file).

Definition number_of_folders : Z := Py.len list_of_folders.

(** The loop over the folders, from folder number [folder_nb] on,
    with the two overlap indices left by the iterations before. *)
Fixpoint stitch_loop (remaining : list (list file))
    (folder_nb bottom_overlap_index top_overlap_index : Z)
    : list (list op) * option error :=
  match remaining with
  | [] => ([], None)
  | bottom_image_filenames :: rest =>
      let nb_slices := Py.len bottom_image_filenames in
      if folder_nb <? number_of_folders - 1 then
        let top_image_filenames :=
          nth (Z.to_nat (folder_nb + 1)) list_of_folders [] in
        if security_band_size >? 0 then
          match overlap_index_difference bottom_image_filenames
                  top_image_filenames with
          | Raise e => ([[]], Some e)
          | Ok difference =>
          let bottom_overlap_index :=
            supposed_bottom_overlap_slice nb_slices + difference in
          let list_to_copy :=
            Py.slice bottom_image_filenames top_overlap_index
              bottom_overlap_index in
          if overlap_mode =? 0 then
            let '(out, e) :=
              stitch_loop rest (folder_nb + 1) bottom_overlap_index
                (supposed_top_overlap_slice nb_slices) in
            (copy_ops list_to_copy :: out, e)
          else
            let half := Py.int_half band_average_size in
            let bottom_average_filenames :=
              Py.slice bottom_image_filenames
                (bottom_overlap_index - half) (bottom_overlap_index + half) in
            let top_average_filenames :=
              Py.slice top_image_filenames
                (supposed_top_overlap_slice nb_slices + difference - half)
                (supposed_top_overlap_slice nb_slices + difference + half) in
            match averaged_slices bottom_average_filenames
                    top_average_filenames with
            | None => ([copy_ops list_to_copy], Some ValueError)
            | Some averaged_image =>
                match save_ops averaged_image bottom_average_filenames with
                | (saved, Some e) =>
                    ([copy_ops list_to_copy ++ saved], Some e)
                | (saved, None) =>
                    let '(out, e) :=
                      stitch_loop rest (folder_nb + 1) bottom_overlap_index
                        (supposed_top_overlap_slice nb_slices + difference
                         + half) in
                    ((copy_ops list_to_copy ++ saved) :: out, e)
                end
            end
          end
        else ([[]], Some (SysExit "Please use a security_band_size > 0"))
      else
        let list_to_copy :=
          Py.slice bottom_image_filenames top_overlap_index (-1) in
        let '(out, e) :=
          stitch_loop rest (folder_nb + 1) bottom_overlap_index
            top_overlap_index in
        (copy_ops list_to_copy :: out, e)
  end.
End Loop.
End AxisStitcher.

Arguments Move {file}.
Arguments Copy {file}.
Arguments SaveAverage {file}.
Arguments sources {file}.

(** The whole run, with the arguments in the order of the Python
    signature ([output_folder] only prefixes the names written). *)
Definition stitch_multiple_folders_into_one {file : Type}
    (overlap_oracle : list file -> list file -> outcome Z)
    (list_of_folders : list (list file)) (delta_z : Z)
    (look_for_best_slice : bool) (copy_mode security_band_size overlap_mode
     band_average_size : Z) (flip : bool)
    : list (list (op file)) * option error :=
  stitch_loop file overlap_oracle delta_z look_for_best_slice copy_mode
    security_band_size overlap_mode band_average_size flip
    list_of_folders list_of_folders 0 0 0.

(** All the operations of a run, in the order they are performed. *)
Definition emitted {file : Type} (run : list (list (op file)) * option error)
    : list (op file) := List.concat (fst run).


(** ** Blending: [average_images_from_filenames]

    [open_sequence] (from [popcorn.input_output]) reads the named slices
    into one array; it enters as a parameter, and so does the arithmetic
    of the pixel type it returns.  An array is a list of slices, a slice
    a list of rows.  [None] stands for what NumPy does with operands of
    different shapes (broadcasting or an exception), which is outside
    what is stated here. *)

Fixpoint zip_with {A B C} (f : A -> B -> option C) (l1 : list A) (l2 : list B)
    : option (list C) :=
  match l1, l2 with
  | [], [] => Some []
  | a :: l1', b :: l2' =>
      match f a b, zip_with f l1' l2' with
      | Some c, Some r => Some (c :: r)
      | _, _ => None
      end
  | _, _ => None
  end.

Section Average.
Variables (file pixel : Type).
Variable open_sequence : list file -> list (list (list pixel)).
Variable add : pixel -> pixel -> pixel.
Variable halve : pixel -> pixel.

Definition image := list (list (list pixel)).

(** [first_image + second_image]. *)
Definition add_images (first_image second_image : image) : option image :=
  zip_with (zip_with (zip_with (fun a b => Some (add a b))))
    first_image second_image.

(** [image / 2]. *)
Definition halve_image (im : image) : image := map (map (map halve)) im.

Definition average_images_from_filenames
    (first_image_filenames second_image_filenames : list file) (mode : Z)
    : option image :=
  let first_image := open_sequence first_image_filenames in
  let second_image := open_sequence second_image_filenames in
  if mode =? 1 then
    option_map halve_image (add_images first_image second_image)
  else
    option_map halve_image (add_images first_image second_image).

(** The pixel of slice [i], row [j], column [k]. *)
Definition pixel_at (im : image) (i j k : nat) : option pixel :=
  match nth_error im i with
  | Some s => match nth_error s j with
              | Some row => nth_error row k
              | None => None
              end
  | None => None
  end.

(** Two arrays of one shape: as many slices, rows and columns. *)
Definition same_shape (im1 im2 : image) : Prop :=
  Forall2 (Forall2 (fun r1 r2 : list pixel => List.length r1 = List.length r2))
    im1 im2.
End Average.

Arguments pixel_at {pixel}.
Arguments same_shape {pixel}.

(** ** Intensity conversion: [resampling.py]

    A 16-bit image is a list of integers in [0, 65535] (the shape plays
    no role, both conversions act pixel by pixel).  Float32 values are
    idealised as rationals: rounding is not modelled.
    [astype(np.uint16)] truncates towards zero and keeps the low 16
    bits. *)

Definition conversion_from_uint16_to_float32 (image : list Z)
    (min_value max_value : Q) : list Q :=
  map (fun x => ((inject_Z x / 65535) * (max_value - min_value) - min_value)%Q)
      image.

Definition astype_uint16 (x : Q) : Z :=
  (Z.quot (Qnum x) (Zpos (Qden x))) mod 65536.

Definition conversion_from_float32_to_uint16 (image : list Q)
    (min_value max_value : Q) : list Z :=
  map (fun x => astype_uint16 ((x - min_value) / (max_value - min_value) * 65535)%Q)
      image.

(** ** CorrelationMatcher: [look_for_maximum_correlation_band]

    The pixel arithmetic of the function (Otsu mask, centring, standard
    deviations, the normalised sum of products; all in floating point)
    is not modelled.  What is modelled is the search built on it: the
    score of slice [idx] of the masked first image against slice
    [slice_nb] of the centred second image enters as [ncc idx slice_nb],
    a rational number, and the second image is taken to have at least
    the [nb_slices] slices of the first. *)

(** An index into a sequence of [len] entries: negative indices count
    from the end, anything else outside is an [IndexError]. *)
Definition py_index (len i : Z) : option nat :=
  if (0 <=? i) && (i <? len) then Some (Z.to_nat i)
  else if (- len <=? i) && (i <? 0) then Some (Z.to_nat (i + len))
  else None.

(** [a[i] = v]. *)
Definition array_set (a : list Z) (i v : Z) : option (list Z) :=
  match py_index (Py.len a) i with
  | Some n => Some (firstn n a ++ v :: skipn (S n) a)
  | None => None
  end.

(** [np.argmax]: the first index of a largest entry. *)
Fixpoint argmax_from (best_index : Z) (best : Q) (index : Z) (l : list Q) : Z :=
  match l with
  | [] => best_index
  | x :: l' =>
      if Qle_bool x best then argmax_from best_index best (index + 1) l'
      else argmax_from index x (index + 1) l'
  end.

Definition argmax (l : list Q) : option Z :=
  match l with
  | [] => None
  | x :: l' => Some (argmax_from 0 x 1 l')
  end.

Fixpoint insert_sorted (x : Z) (l : list Z) : list Z :=
  match l with
  | [] => [x]
  | y :: l' => if x <=? y then x :: l else y :: insert_sorted x l'
  end.

Definition sort (l : list Z) : list Z := fold_right insert_sorted [] l.

(** [np.median] of integer entries: the middle entry of the sorted
    array, or the mean of the two middle ones; [None] is the NaN of an
    empty array. *)
Definition median (l : list Z) : option Q :=
  let s := sort l in
  let n := List.length s in
  match n with
  | O => None
  | _ =>
      if Nat.even n then
        Some ((inject_Z (nth (n / 2 - 1) s 0%Z) + inject_Z (nth (n / 2) s 0%Z)) / 2)%Q
      else Some (inject_Z (nth (n / 2) s 0%Z))
  end.

Section CorrelationBand.
Variable ncc : nat -> Z -> Q.
Variables (nb_slices band_size : Z).

Definition middle_slice_nb : Z := Py.int_half nb_slices.

(** [np.argmax(normalized_cross_correlations)] for the slice of the
    first image at [index]. *)
Definition best_corresponding_slice (index : nat) : option Z :=
  argmax (map (ncc index) (Py.range nb_slices)).

(** The loop over the offsets, filling [best_slice_candidates]. *)
Fixpoint band_loop (offsets : list Z) (best_slice_candidates : list Z)
    : outcome (list Z) :=
  match offsets with
  | [] => Ok best_slice_candidates
  | i :: rest =>
      match py_index nb_slices (middle_slice_nb + i) with
      | None => Raise IndexError
      | Some index =>
          match best_corresponding_slice index with
          | None => Raise ValueError
          | Some best =>
              match array_set best_slice_candidates
                      (i + Py.int_half band_size) (best - i) with
              | None => Raise IndexError
              | Some candidates => band_loop rest candidates
              end
          end
      end
  end.

Definition look_for_maximum_correlation_band : outcome (option Q) :=
  if band_size <? 0 then Raise ValueError
  else
    match band_loop (Py.range2 (Py.int_half (- band_size)) (Py.int_half band_size))
            (repeat 0 (Z.to_nat band_size)) with
    | Raise e => Raise e
    | Ok best_slice_candidates => Ok (median best_slice_candidates)
    end.

(** The candidate kept for offset [i]: the best match for the slice at
    [middle_slice_nb + i], brought back by the offset. *)
Definition best_candidate (i : Z) : Z :=
  match py_index nb_slices (middle_slice_nb + i) with
  | Some index =>
      match best_corresponding_slice index with
      | Some best => best - i
      | None => 0
      end
  | None => 0
  end.

End CorrelationBand.

(** A score table for eight slices: the slice of the first image at
    [index] matches slice [example_target index] of the second image and
    no other. *)
Definition example_target (index : nat) : Z :=
  match index with
  | 2%nat => 7
  | 3%nat => 2
  | 4%nat => 4
  | 5%nat => 7
  | _ => 0
  end.

Definition example_ncc (index : nat) (slice_nb : Z) : Q :=
  if slice_nb =? example_target index then 1%Q else 0%Q.

(** ** GridCompositor: the final concatenation of the lines

    Step 5 of [multiple_tile_registration].  An image is the list of
    its pixel rows; the rows are kept abstract, the images read for the
    lines being taken of the width of the canvas.  [lines] holds, for
    each of the [number_of_lines] lines of the grid, the images
    [open_image] returns for its slices, in order. *)

Section LineConcatenation.
Variable row : Type.
Variable zero_row : row.

(** [dst[start:stop, :] = src] on arrays: the value must have as many
    rows as the slice addressed, or a single row, which is broadcast. *)
Definition assign_rows (dst : list row) (start stop : Z) (src : list row)
    : outcome (list row) :=
  let a := Py.clamp (Py.len dst) start in
  let b := Z.max a (Py.clamp (Py.len dst) stop) in
  if Py.len src =? b - a then
    Ok (firstn (Z.to_nat a) dst ++ src ++ skipn (Z.to_nat b) dst)
  else
    match src with
    | [r] => Ok (firstn (Z.to_nat a) dst ++ repeat r (Z.to_nat (b - a))
                 ++ skipn (Z.to_nat b) dst)
    | _ => Raise ValueError
    end.

Variables (ref_height supposed_overlap : Z).

(** The body of the loop over [nb_line]. *)
Definition place_line_slice (empty_image : list row) (nb_line : Z)
    (out_slice : list row) : outcome (list row) :=
  let shape0 := Py.len out_slice in
  if nb_line =? 0 then
    assign_rows empty_image 0 (shape0 - supposed_overlap / 2)
      (Py.slice out_slice 0 (shape0 - supposed_overlap / 2))
  else
    assign_rows empty_image
      (nb_line * (ref_height - supposed_overlap / 2)
       - (nb_line - 1) * supposed_overlap / 2)
      (nb_line * ref_height - (2 * nb_line + 1) * supposed_overlap / 2 + shape0)
      (Py.slice out_slice (supposed_overlap / 2)
         (shape0 - supposed_overlap / 2)).

(** The loop over [nb_line] for one slice number: [out_slices] are the
    images of the lines from [nb_line] on. *)
Fixpoint concatenate_lines (empty_image : list row) (nb_line : Z)
    (out_slices : list (list row)) : outcome (list row) :=
  match out_slices with
  | [] => Ok empty_image
  | out_slice :: rest =>
      match place_line_slice empty_image nb_line out_slice with
      | Ok image => concatenate_lines image (nb_line + 1) rest
      | Raise e => Raise e
      end
  end.

(** The loop over [nb_image].  The canvas is one array, written again
    at every slice number and saved after each; the result lists the
    images saved.  [nb_image] stays below the length of every line, so
    that the default of [nth] is never read. *)
Fixpoint concatenation_loop (lines : list (list (list row)))
    (indices : list Z) (empty_image : list row)
    : list (list row) * option error :=
  match indices with
  | [] => ([], None)
  | nb_image :: rest =>
      match concatenate_lines empty_image 0
              (map (fun line => nth (Z.to_nat nb_image) line []) lines) with
      | Raise e => ([], Some e)
      | Ok image =>
          let '(saved, e) := concatenation_loop lines rest image in
          (image :: saved, e)
      end
  end.

(** [min(list_of_len)]. *)
Definition min_len (lines : list (list (list row))) : option Z :=
  match lines with
  | [] => None
  | line :: rest =>
      Some (fold_left (fun m l => Z.min m (Py.len l)) rest (Py.len line))
  end.

Definition final_concatenation (number_of_lines : Z)
    (lines : list (list (list row))) : list (list row) * option error :=
  let height := number_of_lines * ref_height
                - supposed_overlap * (number_of_lines - 1) in
  if height <? 0 then ([], Some ValueError)
  else
    match min_len lines with
    | None => ([], Some ValueError)
    | Some n =>
        concatenation_loop lines (Py.range n) (repeat zero_row (Z.to_nat height))
    end.

(** The assembly as the design document words it: the first line
    keeps its top edge and loses half the overlap at the bottom, the
    lines after it lose half the overlap on both edges, except the
    last one, which keeps its bottom edge. *)
Fixpoint later_lines_as_claimed (half : Z) (out_slices : list (list row))
    : list row :=
  match out_slices with
  | [] => []
  | [last] => Py.slice_from last half
  | out_slice :: rest =>
      Py.slice out_slice half (Py.len out_slice - half)
      ++ later_lines_as_claimed half rest
  end.

Definition lines_as_claimed (half : Z) (out_slices : list (list row))
    : list row :=
  match out_slices with
  | [] => []
  | first :: rest =>
      Py.slice first 0 (Py.len first - half) ++ later_lines_as_claimed half rest
  end.
End LineConcatenation.

(** ** Closed forms and further parts of the two files *)

(** *** GridOrderer: the serpentine in closed form *)

Definition is_left (k : Corner) : bool :=
  match k with
  | TopLeft | BottomLeft => true
  | TopRight | BottomRight => false
  end.

Definition is_bottom (k : Corner) : bool :=
  match k with
  | BottomLeft | BottomRight => true
  | TopLeft | TopRight => false
  end.

(** Line number [nb_line] of the grid: its [number_of_columns] indices,
    ascending or descending by the parity of the line. *)
Definition serpentine_line (number_of_columns : Z) (left : bool) (nb_line : Z)
    : list Z :=
  let line := Py.range2 (nb_line * number_of_columns)
                (nb_line * number_of_columns + number_of_columns) in
  if (nb_line + (if left then 1 else 0)) mod 2 =? 0 then rev line else line.

Definition serpentine (k : Corner) (number_of_lines number_of_columns : Z)
    : list Z :=
  let lines := map (serpentine_line number_of_columns (is_left k))
                 (Py.range number_of_lines) in
  List.concat (if is_bottom k then rev lines else lines).

(** *** AxisStitcher: kinds and names of the operations *)

Definition is_move {file : Type} (o : op file) : bool :=
  match o with
  | Move _ _ => true
  | _ => false
  end.

Definition is_save {file : Type} (o : op file) : bool :=
  match o with
  | SaveAverage _ _ _ => true
  | _ => false
  end.

(** The file whose base name the operation writes under. *)
Definition name_of {file : Type} (o : op file) : file :=
  match o with
  | Move _ name_from => name_from
  | Copy _ name_from => name_from
  | SaveAverage _ _ name_from => name_from
  end.

(** *** CorrelationMatcher: [look_for_maximum_correlation]

    As for the band search, the pixel arithmetic is not modelled: the
    score of the middle slice of the first image against slice
    [slice_nb] of the second enters as [ncc slice_nb], a rational
    number.  Reading the middle slice of an empty first image and taking
    the [np.argmax] of no score at all raise. *)
Definition look_for_maximum_correlation (ncc : Z -> Q)
    (first_nb_slices second_nb_slices : Z) : outcome Z :=
  match py_index first_nb_slices (Py.int_half first_nb_slices) with
  | None => Raise IndexError
  | Some _ =>
      match argmax (map ncc (Py.range second_nb_slices)) with
      | None => Raise ValueError
      | Some best_corresponding_slice_nb => Ok best_corresponding_slice_nb
      end
  end.

(** *** PairwiseTileRegistrar: the masks of [compute_two_tiles_registration]

    [mask[mask <= threshold] = 0] and then [mask[mask > threshold] = 1],
    one after the other on the copy of the image, pixel by pixel; the
    threshold is the one [threshold_otsu] returns for the reference
    image.  Pixel values are rationals (only compared, never computed
    with). *)
Definition threshold_mask (threshold : Q) (image : list Q) : list Q :=
  let below := map (fun x => if Qle_bool x threshold then 0%Q else x) image in
  map (fun x => if Qle_bool x threshold then x else 1%Q) below.

(** *** The placement cases of [two_dimensions_stitching]

    The four branches that paste the reference and the moving image
    into the zero canvas, chosen from [supposed_offset = [x, y]]. *)
Inductive placement :=
| ReferenceBelow
| ReferenceAbove
| ReferenceRight
| ReferenceLeft.

Definition placement_case (supposed_offset : Z * Z) : option placement :=
  let '(x, y) := supposed_offset in
  if (Z.abs y >? Z.abs x) && (y >? 0) then Some ReferenceBelow
  else if (Z.abs x <? Z.abs y) && (y <? 0) then Some ReferenceAbove
  else if (Z.abs x >? Z.abs y) && (x >? 0) then Some ReferenceRight
  else if (Z.abs y <? Z.abs x) && (x <? 0) then Some ReferenceLeft
  else None.

(** *** [flip_along_z_axis] of [resampling.py]

    [np.flipud] reverses the first axis and [np.flip(.., axis=2)] the
    third one. *)
Definition flip_along_z_axis {A : Type} (input_image : list (list (list A)))
    : list (list (list A)) :=
  map (map (@rev A)) (rev input_image).

(** ** Properties *)

(** *** Python slices *)

Lemma clamp_bounds (n i : Z) : 0 <= n -> 0 <= Py.clamp n i <= n.
Proof. unfold Py.clamp. destruct (i <? 0) eqn:E; lia. Qed.

Lemma clamp_inside (n i : Z) : 0 <= i <= n -> Py.clamp n i = i.
Proof. unfold Py.clamp. intros H. destruct (i <? 0) eqn:E; lia. Qed.

Lemma clamp_from_end (n i : Z) : 0 < i <= n -> Py.clamp n (- i) = n - i.
Proof. unfold Py.clamp. intros H. destruct (- i <? 0) eqn:E; lia. Qed.

Lemma len_nonneg {A} (l : list A) : 0 <= Py.len l.
Proof. unfold Py.len. lia. Qed.

Lemma split_three {A} (l : list A) (a b : nat) :
  (a <= b)%nat -> l = firstn a l ++ firstn (b - a) (skipn a l) ++ skipn b l.
Proof.
  intros H.
  rewrite <- (firstn_skipn a l) at 1. f_equal.
  rewrite <- (firstn_skipn (b - a) (skipn a l)) at 1. f_equal.
  rewrite skipn_skipn. f_equal. lia.
Qed.

(** Writing a slice back reversed only permutes the list. *)
Lemma slice_assign_rev_perm {A} (l : list A) (a b : Z) :
  Permutation (Py.slice_assign l a b (rev (Py.slice l a b))) l.
Proof.
  unfold Py.slice_assign, Py.slice.
  pose proof (clamp_bounds (Py.len l) a (len_nonneg l)) as Ha.
  pose proof (clamp_bounds (Py.len l) b (len_nonneg l)) as Hb.
  set (a' := Py.clamp (Py.len l) a) in *.
  set (b' := Py.clamp (Py.len l) b) in *.
  rewrite (split_three l (Z.to_nat a') (Z.to_nat (Z.max a' b'))) at 4 by lia.
  apply Permutation_app_head, Permutation_app_tail.
  replace (Z.to_nat (Z.max a' b') - Z.to_nat a')%nat with (Z.to_nat (b' - a')) by lia.
  symmetry. apply Permutation_rev.
Qed.

(** *** GridOrderer *)

Lemma reverse_line_perm c left l k : Permutation (reverse_line c left l k) l.
Proof.
  unfold reverse_line.
  destruct (_ =? 0); [apply slice_assign_rev_perm | reflexivity].
Qed.

Lemma reverse_lines_perm c left ks : forall l,
  Permutation (fold_left (reverse_line c left) ks l) l.
Proof.
  induction ks as [|k ks IH]; intros l; simpl; [reflexivity|].
  rewrite IH. apply reverse_line_perm.
Qed.

Lemma range_length n : List.length (Py.range n) = Z.to_nat n.
Proof. unfold Py.range. now rewrite length_map, length_seq. Qed.

Lemma range2_length a b : List.length (Py.range2 a b) = Z.to_nat (b - a).
Proof. unfold Py.range2. now rewrite length_map, length_seq. Qed.

Section PlaceLines.
Variables (r c : nat) (lof : list Z).
Hypothesis c_pos : (1 <= c)%nat.
Hypothesis lof_len : List.length lof = (r * c)%nat.

Lemma place_line_eq (new : list Z) (k : nat) :
  (k < r)%nat -> List.length new = (r * c)%nat ->
  place_line (Z.of_nat c) lof new (Z.of_nat k) =
    firstn (k * c) new
    ++ firstn c (skipn (r * c - k * c - c) lof)
    ++ skipn (k * c + c) new.
Proof.
  intros Hk Hn.
  assert (Hle : (k * c + c <= r * c)%nat) by nia.
  unfold place_line, Py.slice_assign, Py.slice, Py.slice_from, Py.len.
  rewrite Hn, lof_len, <- !Nat2Z.inj_mul.
  rewrite (clamp_inside _ (Z.of_nat (k * c))),
    (clamp_inside _ (Z.of_nat (k * c) + Z.of_nat c)) by lia.
  rewrite (clamp_from_end _ (Z.of_nat (k * c) + Z.of_nat c)) by lia.
  destruct (Z.gtb_spec (Z.of_nat (k * c)) 0) as [E|E].
  - rewrite clamp_from_end by lia.
    f_equal; [f_equal; lia|]. f_equal; [|f_equal; lia].
    f_equal; [lia|]. f_equal; lia.
  - assert (k * c = 0)%nat as E0 by lia. rewrite !E0.
    f_equal. f_equal; [|f_equal; lia].
    replace (Z.to_nat (Z.of_nat (r * c) - (Z.of_nat 0 + Z.of_nat c)))
      with (r * c - 0 - c)%nat by lia.
    symmetry. apply firstn_all2. rewrite length_skipn. lia.
Qed.

Lemma place_lines_inv (init : list Z) (k : nat) :
  List.length init = (r * c)%nat -> (k <= r)%nat ->
  let new := fold_left (place_line (Z.of_nat c) lof)
               (map Z.of_nat (seq 0 k)) init in
  List.length new = (r * c)%nat /\
  Permutation (firstn (k * c) new) (skipn (r * c - k * c) lof).
Proof.
  intros Hinit. induction k as [|k IH]; intros Hk; cbn zeta.
  - simpl. split; [assumption|].
    rewrite Nat.sub_0_r, skipn_all2 by lia. reflexivity.
  - rewrite seq_S, map_app, fold_left_app. simpl fold_left.
    destruct IH as [Hlen Hperm]; [lia|].
    set (new := fold_left _ _ init) in *.
    assert (Hle : (k * c + c <= r * c)%nat) by nia.
    rewrite place_line_eq by (assumption || lia).
    split.
    + rewrite !length_app, !length_firstn, !length_skipn. lia.
    + set (m := (r * c - S k * c)%nat).
      replace (r * c - k * c - c)%nat with m by lia.
      assert (Hseg : List.length (firstn c (skipn m lof)) = c)
        by (rewrite length_firstn, length_skipn; lia).
      assert (E1 : forall B : list Z,
                 firstn (S k * c)
                   (firstn (k * c) new ++ firstn c (skipn m lof) ++ B)
                 = firstn (k * c) new ++ firstn c (skipn m lof)).
      { intros B. rewrite app_assoc, firstn_app, length_app, Hseg, length_firstn.
        replace (S k * c - (Nat.min (k * c) (List.length new) + c))%nat
          with 0%nat by lia.
        rewrite firstn_O, app_nil_r. apply firstn_all2.
        rewrite length_app, Hseg, length_firstn. lia. }
      assert (E2 : skipn m lof
                   = firstn c (skipn m lof) ++ skipn (r * c - k * c) lof).
      { replace (r * c - k * c)%nat with (c + m)%nat by lia.
        rewrite <- skipn_skipn. symmetry. apply firstn_skipn. }
      rewrite E1. rewrite E2 at 2. rewrite Hperm. apply Permutation_app_comm.
Qed.
End PlaceLines.

Example rearrange_tl_2_3 :
  rearrange_folders_list "top-left" 2 3 = [0; 1; 2; 5; 4; 3].
Proof. reflexivity. Qed.

Example rearrange_br_2_3 :
  rearrange_folders_list "bottom-right" 2 3 = [3; 4; 5; 2; 1; 0].
Proof. reflexivity. Qed.

Example rearrange_bl_3_2 :
  rearrange_folders_list "bottom-left" 3 2 = [4; 5; 3; 2; 0; 1].
Proof. reflexivity. Qed.

(** C1. For every grid of at least one line and one column and each of
    the four starting corners, [rearrange_folders_list] returns a
    permutation of the indices [0 .. lines*columns - 1]: every index
    occurs exactly once. *)
Theorem rearrange_folders_list_permutation (k : Corner) (r c : Z) :
  1 <= r -> 1 <= c ->
  Permutation (rearrange_folders_list (corner_name k) r c) (Py.range (r * c)).
Proof.
  intros Hr Hc.
  unfold rearrange_folders_list.
  set (left := contains "left" (corner_name k)).
  set (lof := fold_left (reverse_line c left) (Py.range r) (Py.range (r * c))).
  assert (Hlof : Permutation lof (Py.range (r * c))) by apply reverse_lines_perm.
  destruct (contains "bottom" (corner_name k)); [|exact Hlof].
  assert (Hlen : List.length lof = (Z.to_nat r * Z.to_nat c)%nat).
  { rewrite (Permutation_length Hlof), range_length. nia. }
  assert (Hinit : List.length (Py.range2 1 (r * c + 1))
                  = (Z.to_nat r * Z.to_nat c)%nat).
  { rewrite range2_length. nia. }
  destruct (place_lines_inv (Z.to_nat r) (Z.to_nat c) lof ltac:(lia) Hlen
              _ (Z.to_nat r) Hinit (le_n _)) as [Hn Hp].
  rewrite Z2Nat.id in Hn, Hp by lia.
  unfold Py.range at 1. rewrite <- Hlof.
  rewrite Nat.sub_diag, firstn_all2 in Hp by lia.
  exact Hp.
Qed.

Lemma rearrange_folders_list_permutation_witness :
  (1 <= 2 /\ 1 <= 3) /\
  Permutation (rearrange_folders_list (corner_name BottomRight) 2 3)
    (Py.range (2 * 3)).
Proof.
  split; [lia|]. apply (rearrange_folders_list_permutation BottomRight 2 3); lia.
Defined.

(** C6. On a 2 x 3 grid, starting from the top-left corner yields
    [0; 1; 2; 5; 4; 3] and starting from the bottom-right corner yields
    [3; 4; 5; 2; 1; 0]: the top-left ordering with the order of the lines
    reversed and each line scanned in the opposite direction. *)
Theorem rearrange_bottom_right_reverses_top_left :
  rearrange_folders_list "top-left" 2 3 = [0; 1; 2; 5; 4; 3]
  /\ rearrange_folders_list "bottom-right" 2 3 = [3; 4; 5; 2; 1; 0]
  /\ lines_of 2 3 (rearrange_folders_list "top-left" 2 3)
     = [[0; 1; 2]; [5; 4; 3]]
  /\ lines_of 2 3 (rearrange_folders_list "bottom-right" 2 3)
     = [[3; 4; 5]; [2; 1; 0]]
  /\ rearrange_folders_list "bottom-right" 2 3 =
     List.concat (rev (map (@rev Z) (lines_of 2 3 (rearrange_folders_list "top-left" 2 3)))).
Proof. repeat split; reflexivity. Qed.

(** *** AxisStitcher *)

Example stitch_two_folders :
  stitch_multiple_folders_into_one (fun _ _ => Ok 0)
    [[0; 1; 2; 3; 4; 5; 6; 7; 8; 9]; [10; 11; 12; 13; 14; 15; 16; 17; 18; 19]]%nat
    6 false 1 10 0 0 false
  = ([map (fun n => Copy n n) [0; 1; 2; 3; 4; 5; 6; 7]%nat;
      map (fun n => Copy n n) [12; 13; 14; 15; 16; 17; 18]%nat], None).
Proof. reflexivity. Qed.

(** C5, as stated, fails for a single folder: no pair is stitched, the
    guard on [security_band_size] is never reached, and the folder is
    copied without any error. *)
Lemma stitch_single_folder_no_exit :
  let run := stitch_multiple_folders_into_one (fun _ _ => Ok 0)
               [[0; 1; 2]%nat] 1 true 0 0 0 0 false in
  snd run = None /\ emitted run = [Move 0 0; Move 1 1]%nat.
Proof. split; reflexivity. Qed.

(** C5 (amended). With at least two input folders, a run with a
    non-positive [security_band_size] stops in its first iteration with
    the exit message of the guard, before any file operation. *)
Theorem stitch_non_positive_band_exits {file : Type}
    (overlap_oracle : list file -> list file -> outcome Z)
    (list_of_folders : list (list file)) (delta_z : Z)
    (look_for_best_slice : bool)
    (copy_mode security_band_size overlap_mode band_average_size : Z)
    (flip : bool) :
  security_band_size <= 0 ->
  (2 <= List.length list_of_folders)%nat ->
  let run := stitch_multiple_folders_into_one overlap_oracle list_of_folders
               delta_z look_for_best_slice copy_mode security_band_size
               overlap_mode band_average_size flip in
  snd run = Some (SysExit "Please use a security_band_size > 0")
  /\ emitted run = [].
Proof.
  intros Hs Hn. unfold stitch_multiple_folders_into_one, emitted.
  destruct list_of_folders as [|bottom rest] eqn:E; [simpl in Hn; lia|].
  cbn [stitch_loop].
  destruct (Z.ltb_spec 0 (number_of_folders file (bottom :: rest) - 1)) as [H|H].
  - destruct (Z.gtb_spec security_band_size 0); [lia|]. split; reflexivity.
  - unfold number_of_folders, Py.len in H. simpl List.length in *. lia.
Qed.

Lemma stitch_non_positive_band_exits_witness :
  let run := stitch_multiple_folders_into_one (fun _ _ => Ok 0)
               [[0; 1; 2]; [3; 4; 5]]%nat 1 true 0 0 0 0 false in
  snd run = Some (SysExit "Please use a security_band_size > 0")
  /\ emitted run = [].
Proof.
  apply (stitch_non_positive_band_exits (fun _ _ => Ok 0)
           [[0; 1; 2]; [3; 4; 5]]%nat 1 true 0 0 0 0 false); simpl; lia.
Defined.

Lemma slice_incl {A} (l : list A) (a b : Z) (x : A) :
  In x (Py.slice l a b) -> In x l.
Proof.
  unfold Py.slice. intros H.
  rewrite <- (firstn_skipn (Z.to_nat (Py.clamp (Py.len l) a)) l).
  apply in_or_app. right.
  rewrite <- (firstn_skipn (Z.to_nat (Py.clamp (Py.len l) b - Py.clamp (Py.len l) a))
                (skipn _ l)).
  apply in_or_app. now left.
Qed.

Lemma slice_NoDup {A} (l : list A) (a b : Z) :
  NoDup l -> NoDup (Py.slice l a b).
Proof.
  unfold Py.slice. intros H.
  rewrite <- (firstn_skipn (Z.to_nat (Py.clamp (Py.len l) a)) l) in H.
  apply NoDup_app_remove_l in H.
  rewrite <- (firstn_skipn (Z.to_nat (Py.clamp (Py.len l) b - Py.clamp (Py.len l) a))
                (skipn _ l)) in H.
  now apply NoDup_app_remove_r in H.
Qed.

Lemma sources_map_combine {file} (f : file -> file -> op file) :
  (forall s n, source file (f s n) = [s]) ->
  forall l l' : list file, List.length l = List.length l' ->
  sources (map (fun '(s, n) => f s n) (combine l l')) = l.
Proof.
  intros Hf. induction l as [|x l IH]; intros [|y l'] Hl; try discriminate; [reflexivity|].
  simpl. unfold sources in IH. rewrite Hf. simpl. f_equal. apply IH.
  simpl in Hl. lia.
Qed.

Lemma sources_copy_ops {file} (copy_mode : Z) (flip : bool) (l : list file) :
  sources (copy_ops file copy_mode flip l) = l.
Proof.
  unfold copy_ops.
  apply (sources_map_combine
           (fun s n => if copy_mode =? 0 then Move s n else Copy s n)).
  - intros s n. now destruct (copy_mode =? 0).
  - destruct flip; [now rewrite length_rev | reflexivity].
Qed.

Lemma sources_concat {file} (out : list (list (op file))) :
  sources (List.concat out) = List.concat (map sources out).
Proof.
  induction out as [|ops out IH]; [reflexivity|].
  simpl. unfold sources in *. now rewrite flat_map_app, IH.
Qed.

Section CutOver.
Context {file : Type}.
Variables (overlap_oracle : list file -> list file -> outcome Z) (delta_z : Z)
          (look_for_best_slice : bool)
          (copy_mode security_band_size band_average_size : Z) (flip : bool)
          (list_of_folders : list (list file)).
Hypothesis band_positive : 0 < security_band_size.

Local Abbreviation loop :=
  (stitch_loop file overlap_oracle delta_z look_for_best_slice copy_mode
     security_band_size 0 band_average_size flip list_of_folders).
Local Abbreviation difference :=
  (overlap_index_difference file overlap_oracle delta_z look_for_best_slice
     security_band_size).
Local Abbreviation copied := (copy_ops file copy_mode flip).
Local Abbreviation supposed_bottom := (supposed_bottom_overlap_slice delta_z).
Local Abbreviation supposed_top := (supposed_top_overlap_slice delta_z).

Hypothesis search_returns : forall bottom top, exists d, difference bottom top = Ok d.




End CutOver.

Lemma NoDup_concat_slices {A} (outs rest : list (list A)) :
  Forall2 (fun out bottom => exists a b, out = Py.slice bottom a b) outs rest ->
  NoDup (List.concat rest) -> NoDup (List.concat outs).
Proof.
  induction 1 as [|out bottom outs rest (a & b & ->) HF IH]; intros Hnd; simpl in *.
  - constructor.
  - apply NoDup_app.
    + apply slice_NoDup. now apply NoDup_app_remove_r in Hnd.
    + apply IH. now apply NoDup_app_remove_l in Hnd.
    + intros x Hx Hin. apply slice_incl in Hx.
      assert (Hrest : In x (List.concat rest)).
      { clear - Hin HF. induction HF as [|o b' os bs (a' & b'' & ->) _ IHf];
          simpl in *; [assumption|].
        apply in_app_or in Hin. apply in_or_app.
        destruct Hin as [Hin|Hin]; [left; eapply slice_incl; eauto | right; auto]. }
      clear - Hx Hrest Hnd.
      induction bottom as [|y bottom IHb]; [contradiction|].
      simpl in Hnd. inversion Hnd as [|? ? Hy Hnd']; subst.
      destruct Hx as [->|Hx]; [apply Hy, in_or_app; now right | now apply IHb].
Qed.




(** *** Intensity conversion *)

(** The docstring of [conversion_from_uint16_to_float32] maps 0 to
    [min_value]; the code maps it to [- min_value]. *)
Lemma uint16_zero_maps_to_minus_min (min_value max_value : Q) :
  Forall2 Qeq (conversion_from_uint16_to_float32 [0] min_value max_value)
    [(- min_value)%Q].
Proof.
  unfold conversion_from_uint16_to_float32. simpl.
  constructor; [|constructor]. field.
Qed.

(** C10 fails on the code.  With the bounds -1 and 65535, pixel 0
    becomes 1.0 (not -1.0) and comes back as 1: every intermediate
    value (0, 65536, 1, 2, 2/65536, 131070/65536) is a binary32 number,
    so no rounding enters. *)
Theorem conversion_round_trip_shifts_zero :
  map Qred (conversion_from_uint16_to_float32 [0] (-1) 65535) = [1%Q]
  /\ conversion_from_float32_to_uint16
       (conversion_from_uint16_to_float32 [0] (-1) 65535) (-1) 65535 = [1].
Proof. split; reflexivity. Qed.

(** *** Blending *)

Lemma zip_with_nth {A B C} (f : A -> B -> option C) :
  forall l1 l2 r, zip_with f l1 l2 = Some r ->
  List.length r = List.length l1 /\
  forall i a b, nth_error l1 i = Some a -> nth_error l2 i = Some b ->
    exists c, f a b = Some c /\ nth_error r i = Some c.
Proof.
  induction l1 as [|x l1 IH]; intros [|y l2] r H; simpl in H; try discriminate.
  - injection H as <-. split; [reflexivity|]. intros [|i]; discriminate.
  - destruct (f x y) as [c|] eqn:Ef; [|discriminate].
    destruct (zip_with f l1 l2) as [r'|] eqn:Er; [|discriminate].
    injection H as <-. destruct (IH _ _ Er) as [Hl Hn].
    split; [simpl; now rewrite Hl|].
    intros [|i] a b Ha Hb; simpl in *.
    + injection Ha as <-. injection Hb as <-. now exists c.
    + eauto.
Qed.

Lemma zip_with_total {A B C} (f : A -> B -> option C) (R : A -> B -> Prop) :
  (forall a b, R a b -> exists c, f a b = Some c) ->
  forall l1 l2, Forall2 R l1 l2 -> exists r, zip_with f l1 l2 = Some r.
Proof.
  intros Hf l1 l2 H. induction H as [|a b l1 l2 Hab _ [r Hr]]; simpl.
  - now exists [].
  - destruct (Hf a b Hab) as [c Hc]. rewrite Hc, Hr. now exists (c :: r).
Qed.

Section AverageProperties.
Variables (file pixel : Type).
Variable open_sequence : list file -> list (list (list pixel)).
Variable add : pixel -> pixel -> pixel.
Variable halve : pixel -> pixel.

Lemma add_images_total (im1 im2 : image pixel) :
  same_shape im1 im2 -> exists r, add_images pixel add im1 im2 = Some r.
Proof.
  unfold same_shape, add_images. apply zip_with_total.
  intros s1 s2. apply zip_with_total.
  intros r1 r2 Hlen. revert r2 Hlen.
  induction r1 as [|a r1 IH]; intros [|b r2] Hlen; simpl in *; try discriminate.
  - now exists [].
  - destruct (IH r2) as [r Hr]; [lia|]. rewrite Hr. eauto.
Qed.

Lemma add_images_pixel (im1 im2 r : image pixel) (i j k : nat) (a b : pixel) :
  add_images pixel add im1 im2 = Some r ->
  pixel_at im1 i j k = Some a -> pixel_at im2 i j k = Some b ->
  pixel_at r i j k = Some (add a b).
Proof.
  unfold add_images, pixel_at. intros H H1 H2.
  destruct (nth_error im1 i) as [s1|] eqn:E1; [|discriminate].
  destruct (nth_error im2 i) as [s2|] eqn:E2; [|discriminate].
  destruct (zip_with_nth _ _ _ _ H) as [_ Hn].
  destruct (Hn _ _ _ E1 E2) as (s & Hs & ->).
  destruct (nth_error s1 j) as [r1|] eqn:F1; [|discriminate].
  destruct (nth_error s2 j) as [r2|] eqn:F2; [|discriminate].
  destruct (zip_with_nth _ _ _ _ Hs) as [_ Hn'].
  destruct (Hn' _ _ _ F1 F2) as (row & Hrow & ->).
  destruct (zip_with_nth _ _ _ _ Hrow) as [_ Hn''].
  destruct (Hn'' _ _ _ H1 H2) as (c & Hc & ->). congruence.
Qed.

Lemma halve_image_pixel (im : image pixel) (i j k : nat) :
  pixel_at (halve_image pixel halve im) i j k
  = option_map halve (pixel_at im i j k).
Proof.
  unfold halve_image, pixel_at. rewrite nth_error_map.
  destruct (nth_error im i) as [s|]; [|reflexivity]. simpl.
  rewrite nth_error_map.
  destruct (nth_error s j) as [row|]; [|reflexivity]. simpl.
  apply nth_error_map.
Qed.

(** C8. On two slice sequences of one shape, the standard mode (1) and
    the weighted mode (2) return the same array, and each of its
    pixels is the mean [(a + b) / 2] of the two pixels at that place. *)
Theorem average_images_modes_agree
    (first_image_filenames second_image_filenames : list file) :
  same_shape (open_sequence first_image_filenames)
             (open_sequence second_image_filenames) ->
  exists averaged_image,
    average_images_from_filenames file pixel open_sequence add halve
      first_image_filenames second_image_filenames 1 = Some averaged_image
    /\ average_images_from_filenames file pixel open_sequence add halve
         first_image_filenames second_image_filenames 2 = Some averaged_image
    /\ forall i j k a b,
         pixel_at (open_sequence first_image_filenames) i j k = Some a ->
         pixel_at (open_sequence second_image_filenames) i j k = Some b ->
         pixel_at averaged_image i j k = Some (halve (add a b)).
Proof.
  intros Hs. unfold average_images_from_filenames.
  destruct (add_images_total _ _ Hs) as [r Hr].
  exists (halve_image pixel halve r). cbv zeta. simpl Z.eqb. cbv iota.
  rewrite Hr. split; [reflexivity|]. split; [reflexivity|].
  intros i j k a b Ha Hb.
  rewrite halve_image_pixel, (add_images_pixel _ _ _ _ _ _ _ _ Hr Ha Hb).
  reflexivity.
Qed.
End AverageProperties.

Lemma average_images_modes_agree_witness :
  let open_sequence (names : list nat) : list (list (list Q)) :=
    map (fun n => [[inject_Z (Z.of_nat n); 2%Q]; [3%Q; 4%Q]]) names in
  exists averaged_image,
    average_images_from_filenames nat Q open_sequence Qplus (fun x => (x / 2)%Q)
      [1; 5]%nat [3; 7]%nat 1 = Some averaged_image
    /\ average_images_from_filenames nat Q open_sequence Qplus (fun x => (x / 2)%Q)
         [1; 5]%nat [3; 7]%nat 2 = Some averaged_image
    /\ forall i j k a b,
         pixel_at (open_sequence [1; 5]%nat) i j k = Some a ->
         pixel_at (open_sequence [3; 7]%nat) i j k = Some b ->
         pixel_at averaged_image i j k = Some ((a + b) / 2)%Q.
Proof.
  intros open_sequence.
  apply (average_images_modes_agree nat Q open_sequence Qplus (fun x => (x / 2)%Q)
           [1; 5]%nat [3; 7]%nat).
  repeat constructor.
Defined.

(** *** CorrelationMatcher *)

Lemma py_index_inside (len i : Z) :
  0 <= i < len -> py_index len i = Some (Z.to_nat i).
Proof.
  intros H. unfold py_index.
  destruct (Z.leb_spec 0 i); [|lia]. destruct (Z.ltb_spec i len); [|lia].
  reflexivity.
Qed.

Lemma argmax_from_spec (l : list Q) :
  forall (best_index : Z) (best : Q) (index : Z),
  let j := argmax_from best_index best index l in
  (j = best_index /\ Forall (fun x => x <= best)%Q l)
  \/ (index <= j < index + Py.len l
      /\ exists y, nth_error l (Z.to_nat (j - index)) = Some y
                   /\ (best <= y)%Q /\ Forall (fun x => x <= y)%Q l).
Proof.
  induction l as [|x l IH]; intros bi b idx; cbv zeta; simpl.
  - left. split; [reflexivity | constructor].
  - unfold Py.len in *. simpl List.length. rewrite Nat2Z.inj_succ.
    destruct (Qle_bool x b) eqn:E.
    + apply Qle_bool_iff in E.
      destruct (IH bi b (idx + 1)) as [[Hj Hall] | (Hj & y & Hy & Hb & Hall)].
      * left. split; [exact Hj | now constructor].
      * right. split; [lia|]. exists y. split; [|split].
        -- replace (Z.to_nat (argmax_from bi b (idx + 1) l - idx))
             with (S (Z.to_nat (argmax_from bi b (idx + 1) l - (idx + 1)))) by lia.
           exact Hy.
        -- exact Hb.
        -- constructor; [now apply Qle_trans with b | exact Hall].
    + assert (Hbx : (b <= x)%Q).
      { apply Qlt_le_weak, Qnot_le_lt. intros H. apply Qle_bool_iff in H. congruence. }
      right.
      destruct (IH idx x (idx + 1)) as [[Hj Hall] | (Hj & y & Hy & Hb & Hall)].
      * rewrite Hj. split; [lia|]. exists x. rewrite Z.sub_diag. simpl.
        split; [reflexivity|]. split; [exact Hbx|].
        constructor; [apply Qle_refl | exact Hall].
      * split; [lia|]. exists y. split; [|split].
        -- replace (Z.to_nat (argmax_from idx x (idx + 1) l - idx))
             with (S (Z.to_nat (argmax_from idx x (idx + 1) l - (idx + 1)))) by lia.
           exact Hy.
        -- now apply Qle_trans with x.
        -- constructor; [exact Hb | exact Hall].
Qed.

(** [np.argmax] returns a position of the array that holds a largest
    entry. *)
Lemma argmax_spec (l : list Q) (j : Z) :
  argmax l = Some j ->
  0 <= j < Py.len l
  /\ exists y, nth_error l (Z.to_nat j) = Some y /\ Forall (fun x => x <= y)%Q l.
Proof.
  destruct l as [|x l]; [discriminate|]. simpl. intros [= <-].
  unfold Py.len. simpl List.length. rewrite Nat2Z.inj_succ.
  destruct (argmax_from_spec l 0 x 1) as [[Hj Hall] | (Hj & y & Hy & Hb & Hall)].
  - rewrite Hj. split; [lia|]. exists x. split; [reflexivity|].
    constructor; [apply Qle_refl | exact Hall].
  - unfold Py.len in Hj. split; [lia|]. exists y. split; [|now constructor].
    replace (Z.to_nat (argmax_from 0 x 1 l))
      with (S (Z.to_nat (argmax_from 0 x 1 l - 1))) by lia.
    exact Hy.
Qed.

Lemma nth_error_range (n : Z) (k : nat) :
  (k < Z.to_nat n)%nat -> nth_error (Py.range n) k = Some (Z.of_nat k).
Proof.
  intros H. unfold Py.range. rewrite nth_error_map, nth_error_seq.
  destruct (Nat.ltb_spec k (Z.to_nat n)); [reflexivity | lia].
Qed.

Lemma int_half_double (h : Z) : Py.int_half (2 * h) = h.
Proof. unfold Py.int_half. rewrite Z.mul_comm. apply Z.quot_mul. lia. Qed.

Section BandProperties.
Variable ncc : nat -> Z -> Q.
Variables (nb_slices h : Z).
Hypothesis h_nonneg : 0 <= h.
Hypothesis band_below : h <= middle_slice_nb nb_slices.
Hypothesis band_above : middle_slice_nb nb_slices + h <= nb_slices.

Local Abbreviation middle := (middle_slice_nb nb_slices).
Local Abbreviation offset_of := (fun k : nat => - h + Z.of_nat k).

Lemma best_corresponding_slice_spec (index : nat) (best : Z) :
  best_corresponding_slice ncc nb_slices index = Some best ->
  0 <= best < nb_slices
  /\ forall s, 0 <= s < nb_slices -> (ncc index s <= ncc index best)%Q.
Proof.
  unfold best_corresponding_slice. intros H.
  destruct (argmax_spec _ _ H) as (Hj & y & Hy & Hall).
  unfold Py.len in Hj. rewrite length_map, range_length in Hj.
  split; [lia|]. intros s Hs.
  rewrite nth_error_map, nth_error_range in Hy by lia. simpl in Hy.
  injection Hy as <-. rewrite Z2Nat.id in Hall by lia.
  rewrite Forall_forall in Hall. apply Hall.
  apply in_map. unfold Py.range. apply in_map_iff.
  exists (Z.to_nat s). split; [lia|]. apply in_seq. lia.
Qed.

Lemma best_corresponding_slice_some (index : nat) :
  1 <= nb_slices -> exists best,
    best_corresponding_slice ncc nb_slices index = Some best.
Proof.
  intros H. unfold best_corresponding_slice, Py.range.
  destruct (Z.to_nat nb_slices) eqn:E; [lia|]. simpl. eauto.
Qed.

End BandProperties.




(** *** GridCompositor *)

Lemma slice_inside {A} (l : list A) (a b : Z) :
  0 <= a <= b -> b <= Py.len l ->
  Py.slice l a b = firstn (Z.to_nat (b - a)) (skipn (Z.to_nat a) l)
  /\ Py.len (Py.slice l a b) = b - a.
Proof.
  intros Hab Hb. unfold Py.slice. rewrite !clamp_inside by lia.
  split; [reflexivity|]. unfold Py.len in *.
  rewrite length_firstn, length_skipn. lia.
Qed.

Lemma half_of_double (s : Z) : 2 * s / 2 = s.
Proof. rewrite Z.mul_comm. apply Z.div_mul. lia. Qed.

Lemma half_of_multiple (a s : Z) : a * (2 * s) / 2 = a * s.
Proof. replace (a * (2 * s)) with (a * s * 2) by ring. apply Z.div_mul. lia. Qed.

Lemma skipn_app_exact {A} (l1 l2 : list A) (n : nat) :
  n = List.length l1 -> skipn n (l1 ++ l2) = l2.
Proof. intros ->. rewrite skipn_app, skipn_all, Nat.sub_diag. reflexivity. Qed.

Lemma firstn_app_exact {A} (l1 l2 : list A) (n : nat) :
  n = List.length l1 -> firstn n (l1 ++ l2) = l1.
Proof.
  intros ->. rewrite firstn_app, firstn_all, Nat.sub_diag, firstn_O.
  apply app_nil_r.
Qed.

Section LineConcatenationProperties.
Variable row : Type.
Variable zero_row : row.
Variables (ref_height half : Z).
Hypothesis half_nonneg : 0 <= half.
Hypothesis half_fits : 2 * half <= ref_height.

Local Abbreviation place := (place_line_slice row ref_height (2 * half)).
Local Abbreviation concatenate := (concatenate_lines row ref_height (2 * half)).
Local Abbreviation crop := (fun out_slice : list row =>
                              Py.slice out_slice half (ref_height - half)).

Lemma assign_rows_exact (dst src : list row) (a b : Z) :
  0 <= a <= b -> b <= Py.len dst -> Py.len src = b - a ->
  assign_rows row dst a b src
  = Ok (firstn (Z.to_nat a) dst ++ src ++ skipn (Z.to_nat b) dst).
Proof.
  intros Hab Hb Hs. unfold assign_rows.
  rewrite !clamp_inside by lia. rewrite Z.max_r by lia.
  destruct (Z.eqb_spec (Py.len src) (b - a)); [reflexivity | contradiction].
Qed.

Lemma crop_length (out_slice : list row) :
  Py.len out_slice = ref_height ->
  Py.len (crop out_slice) = ref_height - 2 * half.
Proof.
  intros H.
  destruct (slice_inside out_slice half (ref_height - half)) as [_ ->]; lia.
Qed.

Lemma place_first (canvas out_slice : list row) :
  Py.len out_slice = ref_height ->
  ref_height - half <= Py.len canvas ->
  place canvas 0 out_slice
  = Ok (Py.slice out_slice 0 (ref_height - half)
        ++ skipn (Z.to_nat (ref_height - half)) canvas).
Proof.
  intros Hh Hc. unfold place_line_slice. cbn [Z.eqb].
  rewrite half_of_double, Hh.
  rewrite assign_rows_exact; [reflexivity | lia | lia |].
  destruct (slice_inside out_slice 0 (ref_height - half)) as [_ ->]; lia.
Qed.

Lemma place_later (pre tail out_slice : list row) (k : Z) :
  1 <= k ->
  Py.len out_slice = ref_height ->
  Py.len pre = k * ref_height - (2 * k - 1) * half ->
  ref_height - 2 * half <= Py.len tail ->
  place (pre ++ tail) k out_slice
  = Ok ((pre ++ crop out_slice)
        ++ skipn (Z.to_nat (ref_height - 2 * half)) tail).
Proof.
  intros Hk Hh Hpre Htail. unfold place_line_slice.
  destruct (Z.eqb_spec k 0); [lia|].
  rewrite half_of_double, !half_of_multiple, Hh.
  assert (Hlen : Py.len (pre ++ tail) = Py.len pre + Py.len tail)
    by (unfold Py.len; rewrite length_app; lia).
  rewrite assign_rows_exact.
  - replace (k * (ref_height - half) - (k - 1) * half) with (Py.len pre) by lia.
    unfold Py.len at 1. rewrite Nat2Z.id, firstn_app_exact by reflexivity.
    rewrite <- app_assoc. do 2 f_equal.
    replace (Z.to_nat (k * ref_height - (2 * k + 1) * half + ref_height))
      with (List.length pre + Z.to_nat (ref_height - 2 * half))%nat
      by (unfold Py.len in *; lia).
    rewrite skipn_app, skipn_all2 by lia.
    cbn [app]. do 2 f_equal. lia.
  - nia.
  - rewrite Hlen. nia.
  - rewrite crop_length by assumption. lia.
Qed.

Lemma concatenate_later (rest : list (list row)) :
  forall (pre tail : list row) (k : Z),
  1 <= k ->
  Forall (fun out_slice => Py.len out_slice = ref_height) rest ->
  Py.len pre = k * ref_height - (2 * k - 1) * half ->
  Py.len rest * (ref_height - 2 * half) <= Py.len tail ->
  concatenate (pre ++ tail) k rest
  = Ok (pre ++ List.concat (map crop rest)
        ++ skipn (Z.to_nat (Py.len rest * (ref_height - 2 * half))) tail).
Proof.
  induction rest as [|out_slice rest IH]; intros pre tail k Hk Hall Hpre Htail.
  - simpl. reflexivity.
  - pose proof (Forall_inv Hall) as Hh. pose proof (Forall_inv_tail Hall) as Hall'.
    cbv beta in Hh.
    assert (Hr : Py.len (out_slice :: rest) = 1 + Py.len rest)
      by (unfold Py.len; simpl List.length; lia).
    pose proof (len_nonneg rest) as Hrest.
    rewrite Hr in *.
    cbn [concatenate_lines]. rewrite place_later by (assumption || nia).
    rewrite IH.
    + cbn [map List.concat]. rewrite <- !app_assoc. do 3 f_equal.
      rewrite skipn_skipn. do 2 f_equal.
      rewrite <- Z2Nat.inj_add by nia. f_equal. ring.
    + lia.
    + assumption.
    + unfold Py.len in *. rewrite length_app.
      pose proof (crop_length out_slice Hh) as Hc. unfold Py.len in Hc. nia.
    + unfold Py.len in *. rewrite length_skipn. nia.
Qed.
Lemma concat_crop_length (rest : list (list row)) :
  Forall (fun out_slice => Py.len out_slice = ref_height) rest ->
  Py.len (List.concat (map crop rest))
  = Py.len rest * (ref_height - 2 * half).
Proof.
  induction 1 as [|out_slice rest Hh _ IH]; [reflexivity|].
  pose proof (crop_length out_slice Hh) as Hc.
  unfold Py.len in *. cbn [map List.concat List.length].
  rewrite length_app. lia.
Qed.

(** One pass over the lines: whatever the canvas held, its rows but
    the last [half] ones are written from the lines. *)
Lemma concatenate_slice (canvas first : list row) (rest : list (list row)) :
  Forall (fun out_slice => Py.len out_slice = ref_height) (first :: rest) ->
  Py.len canvas
  = (1 + Py.len rest) * ref_height - 2 * half * (1 + Py.len rest - 1) ->
  concatenate canvas 0 (first :: rest)
  = Ok (Py.slice first 0 (ref_height - half)
        ++ List.concat (map crop rest)
        ++ skipn (Z.to_nat (Py.len canvas - half)) canvas).
Proof.
  intros Hall Hc.
  pose proof (Forall_inv Hall) as Hh. pose proof (Forall_inv_tail Hall) as Hall'.
  cbv beta in Hh. pose proof (len_nonneg rest) as Hrest.
  cbn [concatenate_lines]. rewrite place_first by (assumption || nia).
  destruct (slice_inside first 0 (ref_height - half)) as [_ Hlen]; [lia | lia |].
  rewrite concatenate_later.
  - do 3 f_equal. rewrite skipn_skipn. f_equal.
    rewrite <- Z2Nat.inj_add by nia. f_equal. rewrite Hc. ring.
  - lia.
  - assumption.
  - rewrite Hlen. lia.
  - unfold Py.len in *. rewrite length_skipn. nia.
Qed.

Variables (first_line : list (list row)) (later_lines : list (list (list row))).
Variable n : nat.
Hypothesis uniform :
  Forall (fun line => List.length line = n
                      /\ Forall (fun out_slice => Py.len out_slice = ref_height) line)
         (first_line :: later_lines).

Local Abbreviation canvas_height :=
  ((1 + Py.len later_lines) * ref_height
   - 2 * half * (1 + Py.len later_lines - 1)).

Lemma slices_uniform (m : nat) :
  (m < n)%nat ->
  Forall (fun out_slice => Py.len out_slice = ref_height)
    (map (fun line : list (list row) => nth m line []) (first_line :: later_lines)).
Proof.
  intros Hm. apply Forall_map. revert uniform. apply Forall_impl.
  intros line [Hlen Hall]. rewrite Forall_forall in Hall.
  apply Hall, nth_In. lia.
Qed.

Lemma concatenation_loop_saves (ms : list nat) :
  forall canvas : list row,
  Forall (fun m => (m < n)%nat) ms ->
  Py.len canvas = canvas_height ->
  skipn (Z.to_nat (canvas_height - half)) canvas = repeat zero_row (Z.to_nat half) ->
  concatenation_loop row ref_height (2 * half) (first_line :: later_lines)
    (map Z.of_nat ms) canvas
  = (map (fun m =>
            Py.slice (nth m first_line []) 0 (ref_height - half)
            ++ List.concat (map (fun line => crop (nth m line [])) later_lines)
            ++ repeat zero_row (Z.to_nat half)) ms, None).
Proof.
  induction ms as [|m ms IH]; intros canvas Hms Hc Hz; [reflexivity|].
  pose proof (Forall_inv Hms) as Hm. pose proof (Forall_inv_tail Hms) as Hms'.
  cbv beta in Hm. pose proof (slices_uniform m Hm) as Hu.
  pose proof (len_nonneg later_lines) as Hl.
  cbn [map concatenation_loop] in *. rewrite Nat2Z.id.
  rewrite concatenate_slice;
    [| exact Hu | unfold Py.len in *; rewrite length_map; exact Hc].
  rewrite Hc, Hz, map_map.
  pose proof (Forall_inv Hu) as Hf. cbv beta in Hf.
  pose proof (concat_crop_length _ (Forall_inv_tail Hu)) as Hcl.
  rewrite map_map in Hcl.
  destruct (slice_inside (nth m first_line []) 0 (ref_height - half))
    as [_ Hfl]; [lia | lia |].
  rewrite IH; [reflexivity | exact Hms' | |].
  - unfold Py.len in *. rewrite !length_app, repeat_length, length_map in *. nia.
  - rewrite app_assoc. apply skipn_app_exact.
    unfold Py.len in *. rewrite length_app, length_map in *. nia.
Qed.

Lemma min_len_uniform :
  min_len row (first_line :: later_lines) = Some (Z.of_nat n).
Proof.
  unfold min_len. f_equal.
  pose proof (Forall_inv uniform) as [Hf _].
  pose proof (Forall_inv_tail uniform) as Hl.
  unfold Py.len at 2. rewrite Hf. clear Hf.
  generalize dependent later_lines. intros lines _ Hl.
  induction Hl as [|line rest [Hlen _] _ IH]; [reflexivity|].
  simpl. unfold Py.len at 2. rewrite Hlen, Z.min_id. exact IH.
Qed.
End LineConcatenationProperties.

(** C9. The code does not do what the claim says, and what its own
    canvas is sized for: the canvas has
    [number_of_lines * ref_height - supposed_overlap * (number_of_lines - 1)]
    rows, the height of the claimed assembly (last line with its bottom
    edge kept), but the loop crops the last line on both edges like the
    lines before it.  With two lines of height 4 and an overlap of 2,
    the saved image is [1; 2; 3; 6; 7; 0] where the claimed assembly is
    [1; 2; 3; 6; 7; 8]: the bottom row of the second line (8) is not
    written, and the last row of the canvas keeps its zero. *)
Lemma final_concatenation_crops_last_line :
  final_concatenation Z 0 4 2 2 [[[1; 2; 3; 4]]; [[5; 6; 7; 8]]]
  = ([[1; 2; 3; 6; 7; 0]], None)
  /\ lines_as_claimed Z 1 [[1; 2; 3; 4]; [5; 6; 7; 8]] = [1; 2; 3; 6; 7; 8]
  /\ fst (final_concatenation Z 0 4 2 2 [[[1; 2; 3; 4]]; [[5; 6; 7; 8]]])
     <> [lines_as_claimed Z 1 [[1; 2; 3; 4]; [5; 6; 7; 8]]].
Proof.
  split; [reflexivity|]. split; [reflexivity|]. vm_compute. discriminate.
Qed.

(** What the loop computes in general: the slip shown above on one
    input is there on every input.  With an even overlap [2 * half] that fits the height of the lines, the final
    concatenation saves one image for every slice number, without error;
    in each, the first line contributes its rows from the top edge down
    to [half] rows above its bottom edge, and every line after it, the
    last one included, contributes its rows without the first [half] and
    the last [half]; the [half] rows left at the bottom of the canvas
    stay zero. *)
Theorem final_concatenation_crops_later_lines (row : Type) (zero_row : row)
    (ref_height half : Z) (first_line : list (list row))
    (later_lines : list (list (list row))) (n : nat) :
  0 <= half ->
  2 * half <= ref_height ->
  Forall (fun line => List.length line = n
                      /\ Forall (fun out_slice => Py.len out_slice = ref_height) line)
         (first_line :: later_lines) ->
  final_concatenation row zero_row ref_height (2 * half)
    (Py.len (first_line :: later_lines)) (first_line :: later_lines)
  = (map (fun m =>
            Py.slice (nth m first_line []) 0 (ref_height - half)
            ++ List.concat
                 (map (fun line => Py.slice (nth m line []) half (ref_height - half))
                      later_lines)
            ++ repeat zero_row (Z.to_nat half)) (seq 0 n), None).
Proof.
  intros Hh Hfit Hu. unfold final_concatenation.
  assert (Hl : Py.len (first_line :: later_lines) = 1 + Py.len later_lines)
    by (unfold Py.len; simpl List.length; lia).
  pose proof (len_nonneg later_lines) as Hlater.
  rewrite Hl.
  set (height := (1 + Py.len later_lines) * ref_height
                 - 2 * half * (1 + Py.len later_lines - 1)).
  assert (Hprod : 0 <= Py.len later_lines * (ref_height - 2 * half)) by nia.
  assert (Hheight : half <= height) by (unfold height; lia).
  destruct (Z.ltb_spec height 0); [lia|].
  rewrite (min_len_uniform row ref_height first_line later_lines n Hu).
  unfold Py.range. rewrite Nat2Z.id.
  apply (concatenation_loop_saves row zero_row ref_height half Hh Hfit
           first_line later_lines n Hu).
  - apply Forall_forall. intros m Hm. apply in_seq in Hm. lia.
  - unfold Py.len at 1. rewrite repeat_length. fold height. lia.
  - fold height.
    replace (Z.to_nat height)
      with (Z.to_nat (height - half) + Z.to_nat half)%nat by lia.
    rewrite repeat_app. apply skipn_app_exact. now rewrite repeat_length.
Qed.

Lemma final_concatenation_crops_later_lines_witness :
  final_concatenation Z 0 4 (2 * 1)
    (Py.len [[[1; 2; 3; 4]]; [[5; 6; 7; 8]]]) [[[1; 2; 3; 4]]; [[5; 6; 7; 8]]]
  = (map (fun m =>
            Py.slice (nth m [[1; 2; 3; 4]] []) 0 (4 - 1)
            ++ List.concat
                 (map (fun line => Py.slice (nth m line []) 1 (4 - 1))
                      [[[5; 6; 7; 8]]])
            ++ repeat 0 (Z.to_nat 1)) (seq 0 1), None).
Proof.
  apply (final_concatenation_crops_later_lines Z 0 4 1
           [[1; 2; 3; 4]] [[[5; 6; 7; 8]]] 1%nat); [lia | lia |].
  repeat constructor.
Defined.

(** ** Further properties *)

(** *** GridOrderer in closed form *)

Lemma map_seq_shift {A} (f g : nat -> A) (n : nat) :
  forall s, (forall i, (i < n)%nat -> f (s + i)%nat = g i) ->
  map f (seq s n) = map g (seq 0 n).
Proof.
  induction n as [|n IH]; intros s H; [reflexivity|].
  rewrite !seq_S, !map_app. simpl. rewrite (IH s) by (intros; apply H; lia).
  f_equal. f_equal. apply H. lia.
Qed.

Lemma range2_split (a b d : Z) :
  a <= b <= d -> Py.range2 a d = Py.range2 a b ++ Py.range2 b d.
Proof.
  intros H. unfold Py.range2.
  replace (Z.to_nat (d - a)) with (Z.to_nat (b - a) + Z.to_nat (d - b))%nat by lia.
  rewrite seq_app, map_app. f_equal. simpl.
  apply map_seq_shift. intros i _. lia.
Qed.

Lemma range_range2 (n : Z) : Py.range n = Py.range2 0 n.
Proof.
  unfold Py.range, Py.range2. rewrite Z.sub_0_r. apply map_ext. intros; lia.
Qed.

Lemma slice_app_mid {A} (pre seg post : list A) (a b : Z) :
  Py.len pre = a -> Py.len seg = b - a ->
  Py.slice (pre ++ seg ++ post) a b = seg.
Proof.
  intros Ha Hb. unfold Py.slice, Py.len in *. rewrite !length_app.
  rewrite !clamp_inside by lia.
  replace (Z.to_nat a) with (List.length pre) by lia.
  rewrite skipn_app_exact by reflexivity.
  apply firstn_app_exact. lia.
Qed.

Lemma slice_assign_app_mid {A} (pre seg post v : list A) (a b : Z) :
  Py.len pre = a -> Py.len seg = b - a ->
  Py.slice_assign (pre ++ seg ++ post) a b v = pre ++ v ++ post.
Proof.
  intros Ha Hb. unfold Py.slice_assign, Py.len in *. rewrite !length_app.
  rewrite !clamp_inside by lia. rewrite Z.max_r by lia.
  f_equal; [apply firstn_app_exact; lia|]. f_equal.
  rewrite app_assoc. apply skipn_app_exact. rewrite length_app. lia.
Qed.

Lemma serpentine_line_length (c : Z) (left : bool) (j : Z) :
  List.length (serpentine_line c left j) = Z.to_nat c.
Proof.
  unfold serpentine_line. cbv zeta.
  destruct (_ =? 0); rewrite ?length_rev, range2_length; f_equal; lia.
Qed.

Lemma concat_lines_length {A} (c : nat) (lines : list (list A)) :
  Forall (fun l => List.length l = c) lines ->
  List.length (List.concat lines) = (List.length lines * c)%nat.
Proof.
  induction 1 as [|l lines Hl _ IH]; [reflexivity|].
  simpl. rewrite length_app, Hl, IH. reflexivity.
Qed.

Section Serpentine.
Variables (r c : nat) (left : bool).
Hypothesis c_pos : (1 <= c)%nat.

Local Abbreviation line := (fun j : nat => serpentine_line (Z.of_nat c) left (Z.of_nat j)).

Lemma lines_length (js : list nat) :
  List.length (List.concat (map line js)) = (List.length js * c)%nat.
Proof.
  rewrite (concat_lines_length c), length_map; [reflexivity|].
  apply Forall_map, Forall_forall. intros j _.
  rewrite serpentine_line_length. lia.
Qed.

Lemma reverse_lines_closed (k : nat) :
  (k <= r)%nat ->
  fold_left (reverse_line (Z.of_nat c) left) (map Z.of_nat (seq 0 k))
    (Py.range (Z.of_nat (r * c)))
  = List.concat (map line (seq 0 k))
    ++ Py.range2 (Z.of_nat (k * c)) (Z.of_nat (r * c)).
Proof.
  induction k as [|k IH]; intros Hk.
  - simpl. apply range_range2.
  - rewrite seq_S, !map_app, fold_left_app, concat_app, IH by lia.
    cbn [fold_left map List.concat Nat.add]. rewrite app_nil_r, <- app_assoc.
    assert (Hle : (k * c + c <= r * c)%nat) by nia.
    rewrite (range2_split (Z.of_nat (k * c)) (Z.of_nat (k * c) + Z.of_nat c))
      by lia.
    replace (Z.of_nat (S k * c)) with (Z.of_nat (k * c) + Z.of_nat c) by lia.
    set (pre := List.concat (map line (seq 0 k))).
    set (seg := Py.range2 (Z.of_nat (k * c)) (Z.of_nat (k * c) + Z.of_nat c)).
    assert (Hpre : Py.len pre = Z.of_nat (k * c)).
    { unfold Py.len, pre. rewrite lines_length, length_seq. reflexivity. }
    assert (Hseg : Py.len seg = Z.of_nat (k * c) + Z.of_nat c - Z.of_nat (k * c)).
    { unfold Py.len, seg. rewrite range2_length. lia. }
    unfold reverse_line, serpentine_line. cbv zeta.
    rewrite <- Nat2Z.inj_mul. fold seg.
    destruct (_ =? 0).
    + rewrite (slice_app_mid pre seg _ _ _ Hpre Hseg).
      apply (slice_assign_app_mid pre seg _ _ _ _ Hpre Hseg).
    + reflexivity.
Qed.

Lemma lines_from (j : nat) :
  (j < r)%nat ->
  firstn c (skipn (j * c) (List.concat (map line (seq 0 r)))) = line j.
Proof.
  intros Hj.
  replace r with (j + S (r - S j))%nat at 1 by lia.
  rewrite seq_app, map_app, concat_app.
  rewrite skipn_app_exact by (rewrite lines_length, length_seq; reflexivity).
  cbn [seq map List.concat Nat.add].
  apply firstn_app_exact. rewrite serpentine_line_length. lia.
Qed.

Lemma place_lines_closed (init : list Z) (k : nat) :
  (k <= r)%nat ->
  List.length init = (r * c)%nat ->
  fold_left (place_line (Z.of_nat c) (List.concat (map line (seq 0 r))))
    (map Z.of_nat (seq 0 k)) init
  = List.concat (map line (rev (seq (r - k) k))) ++ skipn (k * c) init.
Proof.
  intros Hk Hinit. induction k as [|k IH].
  - reflexivity.
  - rewrite seq_S, map_app, fold_left_app, IH by lia.
    cbn [fold_left map Nat.add].
    assert (Hle : (k * c + c <= r * c)%nat) by nia.
    set (X := List.concat (map line (rev (seq (r - k) k)))).
    assert (HX : List.length X = (k * c)%nat).
    { unfold X. rewrite lines_length, length_rev, length_seq. reflexivity. }
    rewrite (place_line_eq r c _ c_pos).
    + rewrite firstn_app_exact by (symmetry; exact HX).
      replace (r * c - k * c - c)%nat with ((r - S k) * c)%nat by nia.
      rewrite lines_from by lia.
      replace (r - S k)%nat with (r - k - 1)%nat by lia.
      replace (seq (r - k - 1) (S k)) with ((r - k - 1)%nat :: seq (r - k) k)
        by (simpl; do 2 f_equal; lia).
      cbn [rev]. rewrite map_app, concat_app. cbn [map List.concat].
      rewrite app_nil_r, <- app_assoc. fold X. do 2 f_equal.
      rewrite skipn_app, skipn_all2 by lia. rewrite HX, skipn_skipn.
      cbn [app]. f_equal. lia.
    + rewrite lines_length, length_seq. reflexivity.
    + lia.
    + rewrite length_app, HX, length_skipn. lia.
Qed.
End Serpentine.

(** X1. For every grid of at least one column and each of the four
    starting corners, [rearrange_folders_list] returns the serpentine in
    closed form: line [j] holds the indices [j*columns .. j*columns +
    columns - 1], descending on the odd lines for a left corner and on
    the even lines for a right corner, and a bottom corner lists the
    lines from the last to the first. *)
Theorem rearrange_folders_list_serpentine (k : Corner) (r c : Z) :
  0 <= r -> 1 <= c ->
  rearrange_folders_list (corner_name k) r c = serpentine k r c.
Proof.
  intros Hr Hc. unfold rearrange_folders_list, serpentine.
  replace (contains "left" (corner_name k)) with (is_left k) by (now destruct k).
  replace (contains "bottom" (corner_name k)) with (is_bottom k) by (now destruct k).
  rewrite <- (Z2Nat.id r), <- (Z2Nat.id c) by lia.
  set (r' := Z.to_nat r). set (c' := Z.to_nat c).
  assert (Hc' : (1 <= c')%nat) by lia.
  rewrite <- Nat2Z.inj_mul.
  assert (Hrange : Py.range (Z.of_nat r') = map Z.of_nat (seq 0 r'))
    by (unfold Py.range; now rewrite Nat2Z.id).
  rewrite !Hrange.
  rewrite (reverse_lines_closed r' c' (is_left k) Hc' r' (le_n _)).
  replace (Py.range2 (Z.of_nat (r' * c')) (Z.of_nat (r' * c'))) with (@nil Z)
    by (unfold Py.range2; now rewrite Z.sub_diag).
  rewrite app_nil_r, map_map.
  destruct (is_bottom k); [|reflexivity].
  rewrite (place_lines_closed r' c' (is_left k) Hc' _ r' (le_n _)).
  - rewrite Nat.sub_diag, skipn_all2, app_nil_r, <- map_rev.
    + reflexivity.
    + rewrite range2_length. lia.
  - rewrite range2_length. lia.
Qed.

Lemma rearrange_folders_list_serpentine_witness :
  (0 <= 3 /\ 1 <= 4) /\
  rearrange_folders_list (corner_name BottomLeft) 3 4 = serpentine BottomLeft 3 4.
Proof.
  split; [lia|]. apply (rearrange_folders_list_serpentine BottomLeft 3 4); lia.
Defined.

(** *** AxisStitcher in every mode *)

Lemma slice_empty {A} (l : list A) (a : Z) : Py.slice l a a = [].
Proof. unfold Py.slice. now rewrite Z.sub_diag. Qed.

Lemma Forall_is_save_sources {file} (saved : list (op file)) :
  Forall (fun o => is_save o = true) saved -> sources saved = [].
Proof.
  induction 1 as [|o saved Ho _ IH]; [reflexivity|].
  unfold sources in *. simpl. rewrite IH.
  destruct o; try discriminate. reflexivity.
Qed.

Section StitchShape.
Context {file : Type}.
Variables (overlap_oracle : list file -> list file -> outcome Z) (delta_z : Z)
          (look_for_best_slice : bool)
          (copy_mode security_band_size overlap_mode band_average_size : Z)
          (flip : bool) (list_of_folders : list (list file)).

Local Abbreviation loop :=
  (stitch_loop file overlap_oracle delta_z look_for_best_slice copy_mode
     security_band_size overlap_mode band_average_size flip list_of_folders).
Local Abbreviation copied := (copy_ops file copy_mode flip).

(** What one iteration emits for its folder: the copy of one slice
    range of the listing, then, in a blending mode only, saved averages. *)
Local Abbreviation shaped :=
  (fun (ops : list (op file)) (bottom : list file) =>
     exists a b saved,
       ops = copied (Py.slice bottom a b) ++ saved
       /\ Forall (fun o => is_save o = true) saved
       /\ (overlap_mode = 0 -> saved = [])).

Lemma save_indices_saves averaged_image filename indices :
  Forall (fun o : op file => is_save o = true)
    (fst (save_indices file averaged_image filename indices)).
Proof.
  induction indices as [|i indices IH]; simpl; [constructor|].
  destruct (nth_error averaged_image (Z.to_nat i)) as [[b t]|]; [|constructor].
  destruct (save_indices file averaged_image filename indices) as [ops e].
  simpl in *. now constructor.
Qed.

Lemma save_ops_saves averaged_image filenames :
  Forall (fun o : op file => is_save o = true)
    (fst (save_ops file band_average_size averaged_image filenames)).
Proof.
  induction filenames as [|filename filenames IH]; simpl; [constructor|].
  pose proof (save_indices_saves averaged_image filename
                (Py.range2 0 band_average_size)) as H.
  destruct (save_indices file averaged_image filename _) as [ops [e|]];
    simpl in *; [exact H|].
  destruct (save_ops file band_average_size averaged_image filenames) as [ops' e'].
  simpl in *. apply Forall_app. now split.
Qed.

Lemma shaped_nothing (bottom : list file) : shaped [] bottom.
Proof.
  exists 0, 0, []. rewrite slice_empty. repeat split; constructor.
Qed.

Lemma stitch_loop_shape (rest : list (list file)) :
  forall k boi toi,
  exists rest1 rest2,
    rest = rest1 ++ rest2 /\ Forall2 shaped (fst (loop rest k boi toi)) rest1.
Proof.
  induction rest as [|bottom rest IH]; intros k boi toi.
  - exists [], []. split; [reflexivity | constructor].
  - cbn [stitch_loop].
    destruct (k <? number_of_folders file list_of_folders - 1).
    + destruct (security_band_size >? 0);
        [|exists [bottom], rest; split; [reflexivity|];
          constructor; [apply shaped_nothing | constructor]].
      destruct (overlap_index_difference file overlap_oracle delta_z
                  look_for_best_slice security_band_size bottom _) as [d|e];
        [|exists [bottom], rest; split; [reflexivity|];
          constructor; [apply shaped_nothing | constructor]].
      cbv zeta. destruct (Z.eqb_spec overlap_mode 0) as [Hm|Hm].
      * match goal with
        | |- context [stitch_loop _ _ _ _ _ _ _ _ _ _ rest ?k' ?b' ?t'] =>
            destruct (IH k' b' t') as (r1 & r2 & -> & HF);
            destruct (stitch_loop _ _ _ _ _ _ _ _ _ _ (r1 ++ r2) k' b' t') as [out e]
        end.
        exists (bottom :: r1), r2. split; [reflexivity|].
        constructor; [|exact HF].
        eexists _, _, []. rewrite app_nil_r. repeat split; constructor.
      * destruct (averaged_slices file _ _) as [averaged_image|].
        2:{ exists [bottom], rest. split; [reflexivity|].
            constructor; [|constructor].
            eexists _, _, []. rewrite app_nil_r. repeat split; constructor. }
        match goal with
        | |- context [save_ops file band_average_size averaged_image ?names] =>
            pose proof (save_ops_saves averaged_image names) as Hs;
            destruct (save_ops file band_average_size averaged_image names)
              as [saved [e|]]
        end; simpl in Hs.
        -- exists [bottom], rest. split; [reflexivity|].
           constructor; [|constructor].
           eexists _, _, saved. repeat split; [exact Hs | intros; contradiction].
        -- match goal with
           | |- context [stitch_loop _ _ _ _ _ _ _ _ _ _ rest ?k' ?b' ?t'] =>
               destruct (IH k' b' t') as (r1 & r2 & -> & HF);
               destruct (stitch_loop _ _ _ _ _ _ _ _ _ _ (r1 ++ r2) k' b' t')
                 as [out e]
           end.
           exists (bottom :: r1), r2. split; [reflexivity|].
           constructor; [|exact HF].
           eexists _, _, saved. repeat split; [exact Hs | intros; contradiction].
    + cbv zeta.
      match goal with
      | |- context [stitch_loop _ _ _ _ _ _ _ _ _ _ rest ?k' ?b' ?t'] =>
          destruct (IH k' b' t') as (r1 & r2 & -> & HF);
          destruct (stitch_loop _ _ _ _ _ _ _ _ _ _ (r1 ++ r2) k' b' t') as [out e]
      end.
      exists (bottom :: r1), r2. split; [reflexivity|].
      constructor; [|exact HF].
      eexists _, _, []. rewrite app_nil_r. repeat split; constructor.
Qed.
End StitchShape.

Lemma sources_app {file} (ops ops' : list (op file)) :
  sources (ops ++ ops') = sources ops ++ sources ops'.
Proof. unfold sources. apply flat_map_app. Qed.

Lemma names_map_combine {file} (f : file -> file -> op file) :
  (forall s n, name_of (f s n) = n) ->
  forall l l' : list file, List.length l = List.length l' ->
  map name_of (map (fun '(s, n) => f s n) (combine l l')) = l'.
Proof.
  intros Hf. induction l as [|x l IH]; intros [|y l'] Hl; try discriminate; [reflexivity|].
  simpl. rewrite Hf. f_equal. apply IH. simpl in Hl. lia.
Qed.

Lemma names_copy_ops {file} (copy_mode : Z) (flip : bool) (l : list file) :
  map name_of (copy_ops file copy_mode flip l) = if flip then rev l else l.
Proof.
  unfold copy_ops.
  apply (names_map_combine
           (fun s n => if copy_mode =? 0 then Move s n else Copy s n)).
  - intros s n. now destruct (copy_mode =? 0).
  - destruct flip; [now rewrite length_rev | reflexivity].
Qed.

Lemma copy_ops_never_move {file} (copy_mode : Z) (flip : bool) (l : list file) :
  copy_mode <> 0 ->
  Forall (fun o => is_move o = false) (copy_ops file copy_mode flip l).
Proof.
  intros Hc. unfold copy_ops. apply Forall_forall. intros o Ho.
  apply in_map_iff in Ho. destruct Ho as ([s n] & <- & _).
  destruct (Z.eqb_spec copy_mode 0); [contradiction | reflexivity].
Qed.

(** X2. Whatever the mode and the options, and whether or not the run
    ends in an error, no source slice is moved or copied twice when the
    folders hold distinct files. *)
Theorem stitch_never_transfers_twice {file : Type}
    (overlap_oracle : list file -> list file -> outcome Z)
    (list_of_folders : list (list file)) (delta_z : Z)
    (look_for_best_slice : bool)
    (copy_mode security_band_size overlap_mode band_average_size : Z)
    (flip : bool) :
  NoDup (List.concat list_of_folders) ->
  NoDup (sources (emitted
    (stitch_multiple_folders_into_one overlap_oracle list_of_folders delta_z
       look_for_best_slice copy_mode security_band_size overlap_mode
       band_average_size flip))).
Proof.
  intros Hnd. unfold stitch_multiple_folders_into_one, emitted.
  destruct (stitch_loop_shape overlap_oracle delta_z look_for_best_slice
              copy_mode security_band_size overlap_mode band_average_size flip
              list_of_folders list_of_folders 0 0 0) as (r1 & r2 & E & HF).
  rewrite sources_concat. apply (NoDup_concat_slices _ r1).
  - clear - HF. induction HF as [|ops bottom out r1 (a & b & saved & -> & Hs & _) _ IH];
      simpl; constructor; [|exact IH].
    exists a, b. rewrite sources_app, sources_copy_ops, (Forall_is_save_sources _ Hs).
    apply app_nil_r.
  - rewrite E, concat_app in Hnd. now apply NoDup_app_remove_r in Hnd.
Qed.

Lemma stitch_never_transfers_twice_witness :
  NoDup (sources (emitted
    (stitch_multiple_folders_into_one (fun _ _ => Ok 3)
       [[0; 1; 2; 3; 4; 5]; [6; 7; 8; 9; 10; 11]]%nat 2 true 0 3 1 2 false))).
Proof.
  apply (stitch_never_transfers_twice (fun _ _ => Ok 3)
           [[0; 1; 2; 3; 4; 5]; [6; 7; 8; 9; 10; 11]]%nat 2 true 0 3 1 2 false).
  simpl. repeat (constructor; [simpl; intuition discriminate|]). constructor.
Defined.

(** X3. With a [copy_mode] other than 0 no input file is ever renamed:
    every operation of the run, in every mode, is a copy or the saving of
    an average. *)
Theorem stitch_copy_mode_never_moves {file : Type}
    (overlap_oracle : list file -> list file -> outcome Z)
    (list_of_folders : list (list file)) (delta_z : Z)
    (look_for_best_slice : bool)
    (copy_mode security_band_size overlap_mode band_average_size : Z)
    (flip : bool) :
  copy_mode <> 0 ->
  Forall (fun o => is_move o = false)
    (emitted
       (stitch_multiple_folders_into_one overlap_oracle list_of_folders delta_z
          look_for_best_slice copy_mode security_band_size overlap_mode
          band_average_size flip)).
Proof.
  intros Hc. unfold stitch_multiple_folders_into_one, emitted.
  destruct (stitch_loop_shape overlap_oracle delta_z look_for_best_slice
              copy_mode security_band_size overlap_mode band_average_size flip
              list_of_folders list_of_folders 0 0 0) as (r1 & r2 & _ & HF).
  apply Forall_concat.
  induction HF as [|ops bottom out r1' (a & b & saved & -> & Hs & _) _ IH];
    constructor; [|exact IH].
  apply Forall_app. split; [now apply copy_ops_never_move|].
  revert Hs. apply Forall_impl. intros [] H; (discriminate || reflexivity).
Qed.

Lemma stitch_copy_mode_never_moves_witness :
  Forall (fun o => is_move o = false)
    (emitted
       (stitch_multiple_folders_into_one (fun _ _ => Ok 3)
          [[0; 1; 2; 3; 4; 5]; [6; 7; 8; 9; 10; 11]]%nat 2 true 1 3 1 2 false)).
Proof.
  apply (stitch_copy_mode_never_moves (fun _ _ => Ok 3)
           [[0; 1; 2; 3; 4; 5]; [6; 7; 8; 9; 10; 11]]%nat 2 true 1 3 1 2 false).
  lia.
Defined.

(** X4. In a cut-over run every slice keeps its own name when [flip] is
    off; when it is on, the slices of each folder's contribution are
    written under the names of that contribution in reverse order. *)
Theorem stitch_cut_over_names {file : Type}
    (overlap_oracle : list file -> list file -> outcome Z)
    (list_of_folders : list (list file)) (delta_z : Z)
    (look_for_best_slice : bool)
    (copy_mode security_band_size band_average_size : Z) (flip : bool) :
  Forall (fun ops => map name_of ops
                     = if flip then rev (sources ops) else sources ops)
    (fst (stitch_multiple_folders_into_one overlap_oracle list_of_folders
            delta_z look_for_best_slice copy_mode security_band_size 0
            band_average_size flip)).
Proof.
  unfold stitch_multiple_folders_into_one.
  destruct (stitch_loop_shape overlap_oracle delta_z look_for_best_slice
              copy_mode security_band_size 0 band_average_size flip
              list_of_folders list_of_folders 0 0 0) as (r1 & r2 & _ & HF).
  induction HF as [|ops bottom out r1' (a & b & saved & -> & _ & Hm) _ IH];
    constructor; [|exact IH].
  rewrite (Hm eq_refl), app_nil_r, names_copy_ops, sources_copy_ops.
  reflexivity.
Qed.



Lemma slice_before_last {A} (l : list A) (x y : A) (a : Z) :
  In y (Py.slice (l ++ [x]) a (-1)) -> In y l.
Proof.
  unfold Py.slice, Py.len. rewrite length_app. simpl List.length.
  pose proof (clamp_bounds (Z.of_nat (List.length l + 1)) a ltac:(lia)) as Ha.
  set (a' := Py.clamp (Z.of_nat (List.length l + 1)) a) in *.
  replace (Py.clamp (Z.of_nat (List.length l + 1)) (-1))
    with (Z.of_nat (List.length l))
    by (pose proof (clamp_from_end (Z.of_nat (List.length l + 1)) 1 ltac:(lia))
          as Hc; simpl Z.opp in Hc; lia).
  intros H.
  destruct (Z.eq_dec a' (Z.of_nat (List.length l + 1))) as [E|E].
  - rewrite E in H. replace (Z.to_nat _) with 0%nat in H by lia. destruct H.
  - rewrite skipn_app in H.
    replace (Z.to_nat a' - List.length l)%nat with 0%nat in H by lia.
    rewrite skipn_O, firstn_app_exact in H
      by (rewrite length_skipn; lia).
    rewrite <- (firstn_skipn (Z.to_nat a') l). apply in_or_app. now right.
Qed.

Section StitchLast.
Context {file : Type}.
Variables (overlap_oracle : list file -> list file -> outcome Z) (delta_z : Z)
          (look_for_best_slice : bool)
          (copy_mode security_band_size overlap_mode band_average_size : Z)
          (flip : bool) (list_of_folders : list (list file)).

Local Abbreviation loop :=
  (stitch_loop file overlap_oracle delta_z look_for_best_slice copy_mode
     security_band_size overlap_mode band_average_size flip list_of_folders).
Local Abbreviation copied := (copy_ops file copy_mode flip).

(** One iteration on a folder that has a successor: its operations,
    then either the end of the run or the iterations that follow. *)
Lemma loop_cons_cases bottom rest k boi toi :
  k < number_of_folders file list_of_folders - 1 ->
  exists a b saved,
    Forall (fun o : op file => is_save o = true) saved
    /\ (fst (loop (bottom :: rest) k boi toi)
        = [copied (Py.slice bottom a b) ++ saved]
        \/ exists boi' toi',
             fst (loop (bottom :: rest) k boi toi)
             = (copied (Py.slice bottom a b) ++ saved)
               :: fst (loop rest (k + 1) boi' toi')).
Proof.
  intros Hk. cbn [stitch_loop].
  destruct (Z.ltb_spec k (number_of_folders file list_of_folders - 1)); [|lia].
  assert (Hnone : exists a b saved,
             Forall (fun o : op file => is_save o = true) saved
             /\ ([@nil (op file)] = [copied (Py.slice bottom a b) ++ saved]
                 \/ exists boi' toi',
                      [@nil (op file)]
                      = (copied (Py.slice bottom a b) ++ saved)
                        :: fst (loop rest (k + 1) boi' toi'))).
  { exists 0, 0, []. split; [constructor|]. left. now rewrite slice_empty. }
  destruct (security_band_size >? 0); [|exact Hnone].
  destruct (overlap_index_difference file overlap_oracle delta_z
              look_for_best_slice security_band_size bottom _) as [d|e];
    [|exact Hnone].
  clear Hnone. cbv zeta. destruct (overlap_mode =? 0).
  - eexists _, _, []. split; [constructor|]. right.
    match goal with
    | |- context [stitch_loop _ _ _ _ _ _ _ _ _ _ rest ?k' ?b' ?t'] =>
        exists b', t';
        destruct (stitch_loop _ _ _ _ _ _ _ _ _ _ rest k' b' t') as [out e]
    end.
    rewrite app_nil_r. reflexivity.
  - destruct (averaged_slices file _ _) as [averaged_image|].
    2:{ eexists _, _, []. split; [constructor|]. left. now rewrite app_nil_r. }
    match goal with
    | |- context [save_ops file band_average_size averaged_image ?names] =>
        pose proof (save_ops_saves band_average_size averaged_image names) as Hs;
        destruct (save_ops file band_average_size averaged_image names)
          as [saved [e|]]
    end; simpl in Hs.
    + eexists _, _, saved. split; [exact Hs|]. now left.
    + eexists _, _, saved. split; [exact Hs|]. right.
      match goal with
      | |- context [stitch_loop _ _ _ _ _ _ _ _ _ _ rest ?k' ?b' ?t'] =>
          exists b', t';
          destruct (stitch_loop _ _ _ _ _ _ _ _ _ _ rest k' b' t') as [out e']
      end.
      reflexivity.
Qed.

Lemma last_slice_untouched (rest : list (list file)) :
  forall (k boi toi : Z) (front : list (list file)) (bottom : list file) (x : file),
  rest = front ++ [bottom ++ [x]] ->
  number_of_folders file list_of_folders = k + Py.len rest ->
  ~ In x (List.concat front) -> ~ In x bottom ->
  ~ In x (sources (List.concat (fst (loop rest k boi toi)))).
Proof.
  induction rest as [|folder rest IH]; intros k boi toi front bottom x E HN Hf Hb.
  - now destruct front.
  - assert (Hlen : Py.len (folder :: rest) = 1 + Py.len rest)
      by (unfold Py.len; simpl List.length; lia).
    pose proof (len_nonneg rest) as Hrest.
    destruct front as [|f front]; simpl in E; injection E as -> ->.
    + cbn [stitch_loop].
      destruct (Z.ltb_spec k (number_of_folders file list_of_folders - 1));
        [unfold Py.len in *; simpl in *; lia|].
      simpl. rewrite app_nil_r, sources_copy_ops.
      intros Hin. apply Hb. eapply slice_before_last, Hin.
    + assert (Hk : k < number_of_folders file list_of_folders - 1).
      { assert (1 <= Py.len (front ++ [bottom ++ [x]]))
          by (unfold Py.len; rewrite length_app; simpl; lia).
        lia. }
      assert (Hx : ~ In x f) by (intros H; apply Hf; simpl; apply in_or_app; now left).
      destruct (loop_cons_cases f (front ++ [bottom ++ [x]]) k boi toi Hk)
        as (a & b & saved & Hs & [-> | (boi' & toi' & ->)]);
        cbn [List.concat fst];
        rewrite ?app_nil_r, !sources_app, sources_copy_ops,
          (Forall_is_save_sources _ Hs), ?app_nil_r;
        intros H.
      * apply Hx. eapply slice_incl, H.
      * apply in_app_or in H. destruct H as [H|H].
        -- apply Hx. eapply slice_incl, H.
        -- revert H. apply (IH (k + 1) boi' toi' front bottom x eq_refl);
             [lia | | exact Hb].
           intros H. apply Hf. simpl. apply in_or_app. now right.
Qed.
End StitchLast.

(** X6. The last slice of the last folder is never moved nor copied,
    whatever the mode and the options: the last folder is transferred
    up to, but not including, its final slice. *)
Theorem stitch_never_transfers_last_slice {file : Type}
    (overlap_oracle : list file -> list file -> outcome Z)
    (front : list (list file)) (bottom : list file) (x : file) (delta_z : Z)
    (look_for_best_slice : bool)
    (copy_mode security_band_size overlap_mode band_average_size : Z)
    (flip : bool) :
  NoDup (List.concat (front ++ [bottom ++ [x]])) ->
  ~ In x (sources (emitted
      (stitch_multiple_folders_into_one overlap_oracle
         (front ++ [bottom ++ [x]]) delta_z look_for_best_slice copy_mode
         security_band_size overlap_mode band_average_size flip))).
Proof.
  intros Hnd. unfold stitch_multiple_folders_into_one, emitted.
  rewrite concat_app in Hnd. simpl in Hnd. rewrite app_nil_r in Hnd.
  apply (last_slice_untouched overlap_oracle delta_z look_for_best_slice
           copy_mode security_band_size overlap_mode band_average_size flip
           _ _ 0 0 0 front bottom x eq_refl).
  - reflexivity.
  - intros H. apply NoDup_app_remove_l in Hnd as Hl.
    clear Hl. revert Hnd. generalize (List.concat front) H.
    intros l Hin Hnd. induction l as [|y l IHl]; [destruct Hin|].
    simpl in Hnd. inversion Hnd as [|? ? Hy Hnd']; subst.
    destruct Hin as [->|Hin]; [|now apply IHl].
    apply Hy. apply in_or_app. right. apply in_or_app. right. now left.
  - intros H. apply NoDup_app_remove_l in Hnd.
    apply NoDup_remove_2 in Hnd. rewrite app_nil_r in Hnd. contradiction.
Qed.

Lemma stitch_never_transfers_last_slice_witness :
  ~ In 7%nat (sources (emitted
      (stitch_multiple_folders_into_one (fun _ _ => Ok 2)
         ([[0; 1; 2; 3]] ++ [[4; 5; 6] ++ [7]])%nat 2 true 0 2 0 0 false))).
Proof.
  apply (stitch_never_transfers_last_slice (fun _ _ => Ok 2)
           [[0; 1; 2; 3]]%nat [4; 5; 6]%nat 7%nat 2 true 0 2 0 0 false).
  simpl. repeat (constructor; [simpl; intuition discriminate|]). constructor.
Defined.

(** *** CorrelationMatcher: medians, self matches and short bands *)

Lemma insert_sorted_Forall (P : Z -> Prop) (x : Z) (l : list Z) :
  P x -> Forall P l -> Forall P (insert_sorted x l).
Proof.
  intros Hx. induction 1 as [|y l Hy Hl IH]; simpl.
  - now constructor.
  - destruct (x <=? y); repeat constructor; assumption.
Qed.

Lemma sort_Forall (P : Z -> Prop) (l : list Z) :
  Forall P l -> Forall P (sort l).
Proof.
  induction 1 as [|x l Hx _ IH]; simpl; [constructor|].
  now apply insert_sorted_Forall.
Qed.

Lemma insert_sorted_length (x : Z) (l : list Z) :
  List.length (insert_sorted x l) = S (List.length l).
Proof.
  induction l as [|y l IH]; simpl; [reflexivity|].
  destruct (x <=? y); simpl; now rewrite ?IH.
Qed.

Lemma sort_length (l : list Z) : List.length (sort l) = List.length l.
Proof.
  induction l as [|x l IH]; simpl; [reflexivity|].
  now rewrite insert_sorted_length, IH.
Qed.

(** The median of a non-empty array lies between any two bounds of its
    entries. *)
Lemma median_bounds (l : list Z) (a b : Z) :
  l <> [] ->
  Forall (fun x => a <= x <= b) l ->
  exists q, median l = Some q /\ (inject_Z a <= q <= inject_Z b)%Q.
Proof.
  intros Hne Hall. unfold median.
  apply sort_Forall in Hall. rewrite Forall_forall in Hall.
  pose proof (sort_length l) as Hlen.
  destruct (List.length (sort l)) as [|n] eqn:E.
  { destruct l; [contradiction | discriminate]. }
  assert (Hin : forall i, (i < S n)%nat -> a <= nth i (sort l) 0 <= b).
  { intros i Hi. apply Hall, nth_In. lia. }
  assert (Hdiv : (S n / 2 < S n)%nat) by (apply Nat.div_lt; lia).
  pose proof (Hin (S n / 2)%nat Hdiv) as H1.
  pose proof (Hin (S n / 2 - 1)%nat ltac:(lia)) as H2.
  revert H1 H2.
  generalize (nth (S n / 2) (sort l) 0), (nth (S n / 2 - 1) (sort l) 0).
  intros x y Hx Hy.
  destruct (Nat.even (S n)); eexists; (split; [reflexivity|]).
  - unfold Qle, Qdiv, Qmult, Qplus, Qinv, inject_Z. simpl. lia.
  - unfold Qle, inject_Z. simpl. lia.
Qed.


Section BandExtras.
Variable ncc : nat -> Z -> Q.
Variables (nb_slices h : Z).

Local Abbreviation middle := (middle_slice_nb nb_slices).
Local Abbreviation offset_of := (fun k : nat => - h + Z.of_nat k).


Hypothesis band_below : h <= middle.
Hypothesis band_above : middle + h <= nb_slices.

Lemma band_loop_fills_prefix (band_size : Z) (n : nat) :
  Py.int_half band_size = h ->
  forall (s : nat) (candidates : list Z),
  (s + n <= List.length candidates)%nat ->
  Z.of_nat (s + n) = 2 * h ->
  band_loop ncc nb_slices band_size (map offset_of (seq s n)) candidates
  = Ok (firstn s candidates
        ++ map (best_candidate ncc nb_slices) (map offset_of (seq s n))
        ++ skipn (s + n) candidates).
Proof.
  intros Hhalf. induction n as [|n IH]; intros s candidates Hlen Hsum;
    cbn [band_loop map seq].
  - rewrite Nat.add_0_r. cbn [app]. now rewrite firstn_skipn.
  - unfold best_candidate at 1.
    rewrite py_index_inside by lia.
    destruct (best_corresponding_slice_some ncc nb_slices
                (Z.to_nat (middle + (- h + Z.of_nat s)))) as [best Hbest]; [lia|].
    rewrite Hbest. unfold array_set. rewrite Hhalf.
    rewrite py_index_inside by (unfold Py.len; lia).
    replace (Z.to_nat (- h + Z.of_nat s + h)) with s by lia.
    rewrite IH.
    + f_equal. rewrite firstn_app, length_firstn.
      rewrite (firstn_all2 (n := S s)) by (rewrite length_firstn; lia).
      replace (S s - Nat.min s (List.length candidates))%nat with 1%nat by lia.
      cbn [firstn app]. rewrite <- app_assoc. cbn [app]. do 3 f_equal.
      rewrite skipn_app, skipn_all2 by (rewrite length_firstn; lia).
      rewrite length_firstn. cbn [app].
      replace (S s + n - Nat.min s (List.length candidates))%nat with (S n) by lia.
      rewrite skipn_cons, skipn_skipn. f_equal. lia.
    + rewrite length_app, length_firstn. cbn [List.length]. rewrite length_skipn. lia.
    + lia.
Qed.

Lemma best_candidate_range (i : Z) :
  - h <= i < h ->
  1 - h <= best_candidate ncc nb_slices i <= nb_slices - 1 + h.
Proof.
  intros Hi. unfold best_candidate. rewrite py_index_inside by lia.
  destruct (best_corresponding_slice_some ncc nb_slices
              (Z.to_nat (middle + i))) as [best Hbest]; [lia|].
  rewrite Hbest. apply best_corresponding_slice_spec in Hbest. lia.
Qed.

Lemma best_candidate_self_match (i : Z) :
  - h <= i < h ->
  (forall index s, 0 <= index < nb_slices -> 0 <= s < nb_slices ->
     s <> index -> (ncc (Z.to_nat index) s < ncc (Z.to_nat index) index)%Q) ->
  best_candidate ncc nb_slices i = middle.
Proof.
  intros Hi Hself. unfold best_candidate. rewrite py_index_inside by lia.
  destruct (best_corresponding_slice_some ncc nb_slices
              (Z.to_nat (middle + i))) as [best Hbest]; [lia|].
  rewrite Hbest. apply best_corresponding_slice_spec in Hbest.
  destruct Hbest as [Hb Hmax].
  destruct (Z.eq_dec best (middle + i)) as [->|Hne]; [lia|].
  exfalso. apply (Qlt_irrefl (ncc (Z.to_nat (middle + i)) (middle + i))).
  eapply Qle_lt_trans; [apply Hmax; lia|].
  apply Hself; lia.
Qed.
End BandExtras.

Lemma int_half_opp (x : Z) : Py.int_half (- x) = - Py.int_half x.
Proof. unfold Py.int_half. apply Z.quot_opp_l. lia. Qed.

Lemma band_search_even (ncc : nat -> Z -> Q) (nb_slices h : Z) :
  0 <= h ->
  h <= middle_slice_nb nb_slices ->
  middle_slice_nb nb_slices + h <= nb_slices ->
  look_for_maximum_correlation_band ncc nb_slices (2 * h)
  = Ok (median (map (best_candidate ncc nb_slices) (Py.range2 (- h) h))).
Proof.
  intros Hh Hlo Hhi. unfold look_for_maximum_correlation_band.
  destruct (Z.ltb_spec (2 * h) 0); [lia|].
  rewrite int_half_opp, int_half_double. unfold Py.range2.
  rewrite (band_loop_fills_prefix ncc nb_slices h Hlo Hhi (2 * h) _
             (int_half_double h) 0%nat).
  - rewrite skipn_all2 by (rewrite repeat_length; lia).
    cbn [firstn app]. now rewrite app_nil_r.
  - rewrite repeat_length. lia.
  - lia.
Qed.

(** X7. When every slice of the first image matches the slice of the
    same number in the second image strictly better than any other (as
    for two identical bands), the search over an even band that fits
    returns the number of the centre slice. *)
Theorem band_search_self_match (ncc : nat -> Z -> Q) (nb_slices h : Z) :
  1 <= h ->
  h <= middle_slice_nb nb_slices ->
  middle_slice_nb nb_slices + h <= nb_slices ->
  (forall index s, 0 <= index < nb_slices -> 0 <= s < nb_slices ->
     s <> index -> (ncc (Z.to_nat index) s < ncc (Z.to_nat index) index)%Q) ->
  exists q,
    look_for_maximum_correlation_band ncc nb_slices (2 * h) = Ok (Some q)
    /\ (q == inject_Z (middle_slice_nb nb_slices))%Q.
Proof.
  intros Hh Hlo Hhi Hself. rewrite band_search_even by lia.
  destruct (median_bounds
              (map (best_candidate ncc nb_slices) (Py.range2 (- h) h))
              (middle_slice_nb nb_slices) (middle_slice_nb nb_slices))
    as (q & -> & Hq).
  - unfold Py.range2. destruct (Z.to_nat (h - - h)) eqn:E; [lia | discriminate].
  - apply Forall_map, Forall_forall. intros i Hi.
    unfold Py.range2 in Hi. apply in_map_iff in Hi.
    destruct Hi as (k & <- & Hk). apply in_seq in Hk.
    rewrite (best_candidate_self_match ncc nb_slices h Hlo Hhi) by (lia || assumption).
    lia.
  - exists q. split; [reflexivity|]. now apply Qle_antisym.
Qed.

Lemma band_search_self_match_witness :
  exists q,
    look_for_maximum_correlation_band
      (fun index s => if s =? Z.of_nat index then 1%Q else 0%Q) 8 (2 * 2)
    = Ok (Some q)
    /\ (q == inject_Z (middle_slice_nb 8))%Q.
Proof.
  apply (band_search_self_match
           (fun index s => if s =? Z.of_nat index then 1%Q else 0%Q) 8 2);
    change (middle_slice_nb 8) with 4; try lia.
  intros index s Hi Hs Hne. rewrite Z2Nat.id, Z.eqb_refl by lia.
  destruct (Z.eqb_spec s index); [contradiction | reflexivity].
Defined.

(** X8. Over an even band that fits the first image, the slice number
    returned lies between [1 - band_size/2] and [nb_slices - 1 +
    band_size/2]. *)
Theorem band_search_result_range (ncc : nat -> Z -> Q) (nb_slices h : Z) :
  1 <= h ->
  h <= middle_slice_nb nb_slices ->
  middle_slice_nb nb_slices + h <= nb_slices ->
  exists q,
    look_for_maximum_correlation_band ncc nb_slices (2 * h) = Ok (Some q)
    /\ (inject_Z (1 - h) <= q <= inject_Z (nb_slices - 1 + h))%Q.
Proof.
  intros Hh Hlo Hhi. rewrite band_search_even by lia.
  destruct (median_bounds
              (map (best_candidate ncc nb_slices) (Py.range2 (- h) h))
              (1 - h) (nb_slices - 1 + h))
    as (q & -> & Hq).
  - unfold Py.range2. destruct (Z.to_nat (h - - h)) eqn:E; [lia | discriminate].
  - apply Forall_map, Forall_forall. intros i Hi.
    unfold Py.range2 in Hi. apply in_map_iff in Hi.
    destruct Hi as (k & <- & Hk). apply in_seq in Hk.
    apply (best_candidate_range ncc nb_slices h Hlo Hhi). lia.
  - now exists q.
Qed.

Lemma band_search_result_range_witness :
  exists q,
    look_for_maximum_correlation_band example_ncc 8 (2 * 1) = Ok (Some q)
    /\ (inject_Z (1 - 1) <= q <= inject_Z (8 - 1 + 1))%Q.
Proof.
  apply (band_search_result_range example_ncc 8 1);
    change (middle_slice_nb 8) with 4; lia.
Defined.



(** X10. For an odd [band_size = 2 h + 1] whose band fits, the loop
    writes [2 h] candidates and the last entry of the array keeps its
    initial zero: the value returned is the median of the candidates of
    the offsets [-h .. h-1] together with one zero. *)
Theorem band_search_odd_band (ncc : nat -> Z -> Q) (nb_slices h : Z) :
  0 <= h ->
  h <= middle_slice_nb nb_slices ->
  middle_slice_nb nb_slices + h <= nb_slices ->
  look_for_maximum_correlation_band ncc nb_slices (2 * h + 1)
  = Ok (median (map (best_candidate ncc nb_slices) (Py.range2 (- h) h) ++ [0])).
Proof.
  intros Hh Hlo Hhi. unfold look_for_maximum_correlation_band.
  destruct (Z.ltb_spec (2 * h + 1) 0); [lia|].
  assert (Hhalf : Py.int_half (2 * h + 1) = h).
  { unfold Py.int_half. rewrite Z.quot_div_nonneg by lia.
    Z.div_mod_to_equations. lia. }
  rewrite int_half_opp, Hhalf. unfold Py.range2.
  rewrite (band_loop_fills_prefix ncc nb_slices h Hlo Hhi (2 * h + 1) _
             Hhalf 0%nat).
  - cbn [firstn app Nat.add].
    replace (Z.to_nat (2 * h + 1)) with (Z.to_nat (h - - h) + 1)%nat by lia.
    rewrite repeat_app, skipn_app_exact by (now rewrite repeat_length).
    reflexivity.
  - rewrite repeat_length. lia.
  - lia.
Qed.

Lemma band_search_odd_band_witness :
  look_for_maximum_correlation_band example_ncc 8 (2 * 1 + 1)
  = Ok (median (map (best_candidate example_ncc 8) (Py.range2 (- 1) 1) ++ [0])).
Proof.
  apply (band_search_odd_band example_ncc 8 1);
    change (middle_slice_nb 8) with 4; lia.
Defined.

(** *** GridCompositor: odd overlaps and the number of images saved *)

Lemma half_of_odd (s : Z) : (2 * s + 1) / 2 = s.
Proof. Z.div_mod_to_equations. lia. Qed.

Lemma place_second_odd (row : Type) (ref_height s : Z)
    (canvas out_slice : list row) :
  0 <= s -> 2 * s + 2 <= ref_height ->
  Py.len out_slice = ref_height ->
  2 * ref_height - 3 * s - 1 <= Py.len canvas ->
  place_line_slice row ref_height (2 * s + 1) canvas (0 + 1) out_slice
  = Raise ValueError.
Proof.
  intros Hs Hfit Hh Hc. unfold place_line_slice. cbn [Z.add Z.eqb Pos.eqb].
  rewrite half_of_odd, Hh.
  replace ((1 - 1) * (2 * s + 1) / 2) with 0 by (Z.div_mod_to_equations; lia).
  replace ((2 * 1 + 1) * (2 * s + 1) / 2) with (3 * s + 1)
    by (Z.div_mod_to_equations; lia).
  destruct (slice_inside out_slice s (ref_height - s)) as [_ Hlen]; [lia | lia |].
  unfold assign_rows. rewrite !clamp_inside by lia. rewrite Z.max_r by lia.
  destruct (Z.eqb_spec (Py.len (Py.slice out_slice s (ref_height - s)))
              (1 * ref_height - (3 * s + 1) + ref_height
               - (1 * (ref_height - s) - 0))); [lia|].
  destruct (Py.slice out_slice s (ref_height - s)) as [|r [|r' rest]];
    unfold Py.len in Hlen; simpl in Hlen; (reflexivity || lia).
Qed.

Lemma place_first_odd (row : Type) (ref_height s : Z)
    (canvas out_slice : list row) :
  0 <= s -> 2 * s + 2 <= ref_height ->
  Py.len out_slice = ref_height ->
  ref_height - s <= Py.len canvas ->
  place_line_slice row ref_height (2 * s + 1) canvas 0 out_slice
  = Ok (Py.slice out_slice 0 (ref_height - s)
        ++ skipn (Z.to_nat (ref_height - s)) canvas).
Proof.
  intros Hs Hfit Hh Hc. unfold place_line_slice. cbn [Z.eqb].
  rewrite half_of_odd, Hh.
  destruct (slice_inside out_slice 0 (ref_height - s)) as [_ Hlen]; [lia | lia |].
  rewrite assign_rows_exact; [reflexivity | lia | lia | lia].
Qed.

(** X11. With an odd overlap, at least two lines of at least one slice
    each, and lines two rows or more higher than the overlap, the final
    concatenation saves nothing: placing the second line of the first
    slice raises [ValueError], the rows addressed in the canvas being
    one fewer than the rows cropped from the line. *)
Theorem final_concatenation_odd_overlap (row : Type) (zero_row : row)
    (ref_height s : Z) (first_line second_line : list (list row))
    (later_lines : list (list (list row))) (n : nat) :
  0 <= s ->
  2 * s + 2 <= ref_height ->
  (1 <= n)%nat ->
  Forall (fun line => List.length line = n
                      /\ Forall (fun out_slice => Py.len out_slice = ref_height) line)
         (first_line :: second_line :: later_lines) ->
  final_concatenation row zero_row ref_height (2 * s + 1)
    (Py.len (first_line :: second_line :: later_lines))
    (first_line :: second_line :: later_lines)
  = ([], Some ValueError).
Proof.
  intros Hs Hfit Hn Hu. unfold final_concatenation.
  assert (Hl : Py.len (first_line :: second_line :: later_lines)
               = 2 + Py.len later_lines)
    by (unfold Py.len; simpl List.length; lia).
  pose proof (len_nonneg later_lines) as Hlater.
  rewrite Hl.
  set (height := (2 + Py.len later_lines) * ref_height
                 - (2 * s + 1) * (2 + Py.len later_lines - 1)).
  assert (Hprod : 0 <= Py.len later_lines * (ref_height - 2 * s - 1)) by nia.
  assert (Hheight : 2 * ref_height - 2 * s - 1 <= height) by (unfold height; lia).
  destruct (Z.ltb_spec height 0); [lia|].
  rewrite (min_len_uniform row ref_height first_line
             (second_line :: later_lines) n Hu).
  unfold Py.range. rewrite Nat2Z.id.
  destruct n as [|n]; [lia|]. cbn [seq map concatenation_loop concatenate_lines].
  assert (Hfirst : Py.len (nth (Z.to_nat (Z.of_nat 0)) first_line []) = ref_height).
  { apply Forall_inv in Hu. destruct Hu as [Hlen Hall].
    rewrite Forall_forall in Hall. apply Hall, nth_In. simpl. lia. }
  assert (Hsecond : Py.len (nth (Z.to_nat (Z.of_nat 0)) second_line []) = ref_height).
  { apply Forall_inv_tail, Forall_inv in Hu. destruct Hu as [Hlen Hall].
    rewrite Forall_forall in Hall. apply Hall, nth_In. simpl. lia. }
  set (first_slice := nth (Z.to_nat (Z.of_nat 0)) first_line []) in *.
  set (second_slice := nth (Z.to_nat (Z.of_nat 0)) second_line []) in *.
  destruct (slice_inside first_slice 0 (ref_height - s)) as [_ Hlen]; [lia | lia |].
  rewrite place_first_odd;
    [| lia | lia | exact Hfirst | unfold Py.len; rewrite repeat_length; lia].
  rewrite place_second_odd; [reflexivity | lia | lia | exact Hsecond |].
  unfold Py.len in *.
  rewrite length_app, length_skipn, repeat_length. lia.
Qed.

Lemma final_concatenation_odd_overlap_witness :
  final_concatenation Z 0 4 (2 * 0 + 1)
    (Py.len [[[1; 2; 3; 4]]; [[5; 6; 7; 8]]]) [[[1; 2; 3; 4]]; [[5; 6; 7; 8]]]
  = ([], Some ValueError).
Proof.
  apply (final_concatenation_odd_overlap Z 0 4 0 [[1; 2; 3; 4]] [[5; 6; 7; 8]]
           [] 1%nat); [lia | lia | lia |].
  repeat constructor.
Defined.

Lemma concatenation_loop_count (row : Type) (ref_height supposed_overlap : Z)
    (lines : list (list (list row))) (indices : list Z) :
  forall canvas,
  let run := concatenation_loop row ref_height supposed_overlap lines indices
               canvas in
  (List.length (fst run) <= List.length indices)%nat
  /\ (snd run = None -> List.length (fst run) = List.length indices).
Proof.
  induction indices as [|i indices IH]; intros canvas; cbn [concatenation_loop].
  - split; [apply le_n | reflexivity].
  - destruct (concatenate_lines row ref_height supposed_overlap canvas 0 _)
      as [image|e]; [|cbn; split; [lia | discriminate]].
    specialize (IH image). cbv zeta in IH.
    destruct (concatenation_loop row ref_height supposed_overlap lines indices image)
      as [saved e]. cbn in *. destruct IH as [Hle Heq].
    split; [lia|]. intros He. now rewrite Heq.
Qed.

(** X12. The final concatenation never saves more images than the
    shortest line has slices, and saves exactly that many when it ends
    without error. *)
Theorem final_concatenation_count (row : Type) (zero_row : row)
    (ref_height supposed_overlap number_of_lines : Z)
    (lines : list (list (list row))) (n : Z) :
  min_len row lines = Some n ->
  let run := final_concatenation row zero_row ref_height supposed_overlap
               number_of_lines lines in
  (List.length (fst run) <= Z.to_nat n)%nat
  /\ (snd run = None -> List.length (fst run) = Z.to_nat n).
Proof.
  intros Hmin. unfold final_concatenation. rewrite Hmin.
  destruct (_ <? 0); [cbn; split; [lia | discriminate]|].
  pose proof (concatenation_loop_count row ref_height supposed_overlap lines
                (Py.range n)
                (repeat zero_row
                   (Z.to_nat (number_of_lines * ref_height
                              - supposed_overlap * (number_of_lines - 1))))) as H.
  rewrite range_length in H. exact H.
Qed.

Lemma final_concatenation_count_witness :
  let run := final_concatenation Z 0 4 2 2
               [[[1; 2; 3; 4]; [1; 1; 1; 1]; [2; 2; 2; 2]];
                [[5; 6; 7; 8]; [3; 3; 3; 3]]] in
  (List.length (fst run) <= Z.to_nat 2)%nat
  /\ (snd run = None -> List.length (fst run) = Z.to_nat 2).
Proof.
  apply (final_concatenation_count Z 0 4 2 2
           [[[1; 2; 3; 4]; [1; 1; 1; 1]; [2; 2; 2; 2]];
            [[5; 6; 7; 8]; [3; 3; 3; 3]]] 2).
  reflexivity.
Defined.

(** *** Single-slice search *)

Lemma argmax_from_first (l : list Q) :
  forall (best_index : Z) (best : Q) (index : Z),
  best_index < index ->
  let j := argmax_from best_index best index l in
  index <= j ->
  exists y, nth_error l (Z.to_nat (j - index)) = Some y
            /\ (best < y)%Q
            /\ forall k x, (k < Z.to_nat (j - index))%nat ->
                 nth_error l k = Some x -> (x < y)%Q.
Proof.
  induction l as [|x l IH]; intros bi b idx Hbi; cbv zeta; simpl; [lia|].
  intros Hj. destruct (Qle_bool x b) eqn:E.
  - apply Qle_bool_iff in E.
    destruct (argmax_from_spec l bi b (idx + 1)) as [[Heq _] | [Hge _]]; [lia|].
    destruct (IH bi b (idx + 1) ltac:(lia) ltac:(lia)) as (y & Hy & Hb & Hbefore).
    exists y.
    replace (Z.to_nat (argmax_from bi b (idx + 1) l - idx))
      with (S (Z.to_nat (argmax_from bi b (idx + 1) l - (idx + 1)))) by lia.
    split; [exact Hy|]. split; [exact Hb|].
    intros [|k] x' Hk Hx'; simpl in Hx'.
    + injection Hx' as <-. now apply Qle_lt_trans with b.
    + apply (Hbefore k); [lia | exact Hx'].
  - assert (Hbx : (b < x)%Q).
    { apply Qnot_le_lt. intros H. apply Qle_bool_iff in H. congruence. }
    destruct (argmax_from_spec l idx x (idx + 1)) as [[Heq _] | [Hge _]].
    + rewrite Heq, Z.sub_diag. exists x. split; [reflexivity|].
      split; [exact Hbx|]. intros k x' Hk. simpl in Hk. lia.
    + destruct (IH idx x (idx + 1) ltac:(lia) ltac:(lia)) as (y & Hy & Hb & Hbefore).
      exists y.
      replace (Z.to_nat (argmax_from idx x (idx + 1) l - idx))
        with (S (Z.to_nat (argmax_from idx x (idx + 1) l - (idx + 1)))) by lia.
      split; [exact Hy|]. split; [now apply Qlt_trans with x|].
      intros [|k] x' Hk Hx'; simpl in Hx'.
      * injection Hx' as <-. exact Hb.
      * apply (Hbefore k); [lia | exact Hx'].
Qed.

(** [np.argmax] returns the first of the positions that hold a largest
    entry. *)
Lemma argmax_first (l : list Q) (j : Z) :
  argmax l = Some j ->
  forall k x y, (k < Z.to_nat j)%nat ->
    nth_error l k = Some x -> nth_error l (Z.to_nat j) = Some y -> (x < y)%Q.
Proof.
  destruct l as [|x0 l]; [discriminate|]. simpl. intros [= <-] k x y Hk Hx Hy.
  destruct (argmax_from_spec l 0 x0 1) as [[Heq _] | [Hge _]]; [lia|].
  destruct (argmax_from_first l 0 x0 1 ltac:(lia) ltac:(lia))
    as (y' & Hy' & Hb & Hbefore).
  replace (Z.to_nat (argmax_from 0 x0 1 l))
    with (S (Z.to_nat (argmax_from 0 x0 1 l - 1))) in * by lia.
  simpl in Hy. rewrite Hy' in Hy. injection Hy as <-.
  destruct k as [|k]; simpl in Hx.
  - injection Hx as <-. exact Hb.
  - apply (Hbefore k); [lia | exact Hx].
Qed.

(** X13. On two non-empty images the single-slice search returns a
    slice number of the second image whose score no other slice
    exceeds, and the first such slice: every slice before it scores
    strictly less. *)
Theorem single_search_first_best (ncc : Z -> Q)
    (first_nb_slices second_nb_slices : Z) :
  1 <= first_nb_slices ->
  1 <= second_nb_slices ->
  exists best,
    look_for_maximum_correlation ncc first_nb_slices second_nb_slices = Ok best
    /\ 0 <= best < second_nb_slices
    /\ (forall s, 0 <= s < second_nb_slices -> (ncc s <= ncc best)%Q)
    /\ (forall s, 0 <= s < best -> (ncc s < ncc best)%Q).
Proof.
  intros Hf Hs. unfold look_for_maximum_correlation.
  rewrite py_index_inside
    by (unfold Py.int_half; split;
        [apply Z.quot_pos; lia | apply Z.quot_lt; lia]).
  destruct (argmax (map ncc (Py.range second_nb_slices))) as [best|] eqn:E.
  - exists best. split; [reflexivity|].
    destruct (argmax_spec _ _ E) as (Hj & y & Hy & Hall).
    unfold Py.len in Hj. rewrite length_map, range_length in Hj.
    assert (Hnth : forall s, 0 <= s < second_nb_slices ->
               nth_error (map ncc (Py.range second_nb_slices)) (Z.to_nat s)
               = Some (ncc s)).
    { intros s Hs'. rewrite nth_error_map, nth_error_range by lia.
      simpl. now rewrite Z2Nat.id by lia. }
    rewrite Hnth in Hy by lia. injection Hy as <-.
    split; [lia|]. split.
    + intros s Hs'. rewrite Forall_forall in Hall. apply Hall.
      eapply nth_error_In, Hnth; lia.
    + intros s Hs'.
      apply (argmax_first _ _ E (Z.to_nat s)); [lia | |]; apply Hnth; lia.
  - unfold Py.range in E. destruct (Z.to_nat second_nb_slices) eqn:En; [lia|].
    discriminate.
Qed.

Lemma single_search_first_best_witness :
  exists best,
    look_for_maximum_correlation (fun s => if s =? 2 then 1%Q else 0%Q) 3 4
    = Ok best
    /\ 0 <= best < 4
    /\ (forall s, 0 <= s < 4 -> ((if s =? 2 then 1 else 0) <= (if best =? 2 then 1 else 0))%Q)
    /\ (forall s, 0 <= s < best -> ((if s =? 2 then 1 else 0) < (if best =? 2 then 1 else 0))%Q).
Proof.
  apply (single_search_first_best (fun s => if s =? 2 then 1%Q else 0%Q) 3 4); lia.
Defined.

(** *** Registration masks *)

(** X14. The mask built for the registration is binary.  For a
    threshold that is not negative it is 1 exactly on the pixels above
    the threshold and 0 elsewhere; for a negative threshold the second
    assignment also catches the zeros the first one wrote, and the mask
    is 1 everywhere. *)
Theorem threshold_mask_binary (threshold : Q) (image : list Q) :
  threshold_mask threshold image
  = map (fun x => if Qle_bool 0 threshold
                  then (if Qle_bool x threshold then 0%Q else 1%Q)
                  else 1%Q) image.
Proof.
  unfold threshold_mask. rewrite map_map. apply map_ext. intros x.
  destruct (Qle_bool x threshold) eqn:Ex.
  - reflexivity.
  - rewrite Ex. now destruct (Qle_bool 0 threshold).
Qed.

(** *** Placement of two images *)

(** X15. The four placement branches of [two_dimensions_stitching]
    cover every supposed offset but the diagonal ones: none of them is
    taken exactly when the two components have the same magnitude, as
    for the default offset [0, 0]; otherwise the larger component picks
    the axis and its sign the side. *)
Theorem placement_case_diagonal (x y : Z) :
  (placement_case (x, y) = None <-> Z.abs x = Z.abs y)
  /\ (Z.abs x < Z.abs y ->
      placement_case (x, y)
      = Some (if 0 <? y then ReferenceBelow else ReferenceAbove))
  /\ (Z.abs y < Z.abs x ->
      placement_case (x, y)
      = Some (if 0 <? x then ReferenceRight else ReferenceLeft)).
Proof.
  unfold placement_case.
  destruct (Z.gtb_spec (Z.abs y) (Z.abs x)), (Z.gtb_spec y 0),
    (Z.ltb_spec (Z.abs x) (Z.abs y)), (Z.ltb_spec y 0),
    (Z.gtb_spec (Z.abs x) (Z.abs y)), (Z.gtb_spec x 0),
    (Z.ltb_spec (Z.abs y) (Z.abs x)), (Z.ltb_spec x 0),
    (Z.ltb_spec 0 y), (Z.ltb_spec 0 x);
    cbn [andb]; try lia;
    (split; [split; intros; first [reflexivity | discriminate | lia | exfalso; lia] |]);
    split; intros; first [reflexivity | exfalso; lia].
Qed.

(** *** Flipping a volume *)

Lemma map_map_rev_involutive {A} (im : list (list (list A))) :
  map (map (@rev A)) (map (map (@rev A)) im) = im.
Proof.
  rewrite map_map. rewrite <- (map_id im) at 2. apply map_ext. intros s.
  rewrite map_map. rewrite <- (map_id s) at 2. apply map_ext. intros r.
  apply rev_involutive.
Qed.

(** X16. [flip_along_z_axis] is its own inverse: flipping twice gives
    the volume back. *)
Theorem flip_along_z_axis_involutive {A : Type} (input_image : list (list (list A))) :
  flip_along_z_axis (flip_along_z_axis input_image) = input_image.
Proof.
  unfold flip_along_z_axis.
  rewrite <- map_rev, rev_involutive. apply map_map_rev_involutive.
Qed.

(** X17. [flip_along_z_axis] mirrors two axes, not only the first: the
    voxel at slice [i], row [j], column [k] of the result is the voxel
    of the input at slice [n - 1 - i], row [j] and column [w - 1 - k],
    for a volume of [n] slices and a row of [w] columns. *)
Theorem flip_along_z_axis_voxel {A : Type} (input_image : list (list (list A)))
    (i j k : nat) (s : list (list A)) (r : list A) :
  (i < List.length input_image)%nat ->
  nth_error input_image (List.length input_image - 1 - i) = Some s ->
  nth_error s j = Some r ->
  (k < List.length r)%nat ->
  pixel_at (flip_along_z_axis input_image) i j k
  = nth_error r (List.length r - 1 - k).
Proof.
  intros Hi Hs Hr Hk. unfold pixel_at, flip_along_z_axis.
  rewrite nth_error_map, nth_error_rev.
  destruct (Nat.ltb_spec i (List.length input_image)); [|lia].
  replace (List.length input_image - S i)%nat
    with (List.length input_image - 1 - i)%nat by lia.
  rewrite Hs. simpl. rewrite nth_error_map, Hr. simpl.
  rewrite nth_error_rev.
  destruct (Nat.ltb_spec k (List.length r)); [|lia].
  f_equal. lia.
Qed.

Lemma flip_along_z_axis_voxel_witness :
  pixel_at (flip_along_z_axis [[[1; 2; 3]; [4; 5; 6]]; [[7; 8; 9]; [10; 11; 12]]])
    0 1 0
  = nth_error [10; 11; 12] (List.length [10; 11; 12] - 1 - 0).
Proof.
  apply (flip_along_z_axis_voxel
           [[[1; 2; 3]; [4; 5; 6]]; [[7; 8; 9]; [10; 11; 12]]]
           0 1 0 [[7; 8; 9]; [10; 11; 12]] [10; 11; 12]);
    simpl; (reflexivity || lia).
Defined.

Lemma placement_case_diagonal_witness :
  placement_case (0, 0) = None /\ placement_case (3, -3) = None.
Proof.
  split.
  - apply (proj1 (placement_case_diagonal 0 0)). reflexivity.
  - apply (proj1 (placement_case_diagonal 3 (-3))). reflexivity.
Defined.
